(** * Role-based access control for a retrieval-augmented chatbot

    A shallow embedding of the backend of the FinSolve chatbot:
    - [backend/app/auth.py]: the mock user database and [get_current_user];
    - [backend/app/rag_pipeline.py]: [ROLE_ACCESS_MAPPING] and
      [get_rag_response];
    - [backend/app/data_loader.py]: [get_documents_from_path] and
      [ingest_data];
    - [backend/app/main.py]: [chat_with_bot].

    The loaders, the text splitters, the embedding model, the vector store
    and the language model are libraries and services outside the
    repository.  The file parsers, [split_text], [embed], the similarity
    of two vectors and the language model are section variables; the
    store's filtered search and [split_documents] are written out.

    Python dictionaries are finite maps ([gmap]) keyed by strings, Python
    exceptions are the left summand of a sum, and the code that prints,
    deletes the index directory or calls the vector store and the language
    model runs in a small state-and-exception monad over an explicit world. *)

From Stdlib Require Import ZArith Lia List.
From stdpp Require Import gmap strings list fin_maps pretty.

Open Scope string_scope.
Open Scope list_scope.

(** ** Python values shared by the three modules *)

(** Exceptions that the modelled code raises or lets through. *)
Inductive exn : Type :=
| HTTPException (status_code : Z) (detail : string)
| KeyError (key : string)
| LoaderError (file_path : string).

#[global] Instance exn_eq_dec : EqDecision exn.
Proof. solve_decision. Defined.

(** Values stored in the metadata of a langchain [Document]. *)
Inductive meta_value : Type :=
| MStr (s : string)
| MInt (n : Z).

#[global] Instance meta_value_eq_dec : EqDecision meta_value.
Proof. solve_decision. Defined.

(** [Document(page_content=..., metadata={...})]. *)
Record Document : Type := mkDocument {
  page_content : string;
  metadata : gmap string meta_value
}.

#[global] Instance Document_eq_dec : EqDecision Document.
Proof. solve_decision. Defined.

(** [doc.metadata[key] = v], the in-place update of one metadata entry. *)
Definition set_metadata (key : string) (v : meta_value) (doc : Document) : Document :=
  mkDocument (page_content doc) (<[key := v]> (metadata doc)).

(** Python truthiness of a list: [if docs:] holds for a non-empty list. *)
Definition truthy {A : Type} (l : list A) : bool :=
  match l with
  | [] => false
  | _ :: _ => true
  end.

(** ** backend/app/auth.py *)

Module Auth.

(** One entry of [MOCK_USERS] is itself a dictionary from field names to
    strings. *)
Definition MOCK_USERS : gmap string (gmap string string) :=
  list_to_map
    [ ("tony_s", list_to_map [("role", "c_level"); ("password", "password123")]);
      ("peter_p", list_to_map [("role", "engineering"); ("password", "password123")]);
      ("susan_m", list_to_map [("role", "marketing"); ("password", "password123")]);
      ("john_f", list_to_map [("role", "finance"); ("password", "password123")]);
      ("lisa_h", list_to_map [("role", "hr"); ("password", "password123")]);
      ("employee_user", list_to_map [("role", "employee"); ("password", "password123")]) ].

Record UserLogin : Type := mkUserLogin {
  login_username : string;
  login_password : string
}.

Record User : Type := mkUser {
  username : string;
  role : string
}.

#[global] Instance User_eq_dec : EqDecision User.
Proof. solve_decision. Defined.

Definition HTTP_401_UNAUTHORIZED : Z := 401.

Definition unauthorized : exn :=
  HTTPException HTTP_401_UNAUTHORIZED "Incorrect username or password".

(** [not user_in_db]: the result of [MOCK_USERS.get] is falsy when it is
    [None] or an empty dictionary. *)
Definition falsy_entry (user_in_db : option (gmap string string)) : bool :=
  match user_in_db with
  | None => true
  | Some d => bool_decide (d = ∅)
  end.

(** [get_current_user], over an explicit user database which it returns
    together with its result; [user_in_db["role"]] raises [KeyError] on an
    entry without that field. *)
Definition get_current_user (db : gmap string (gmap string string))
    (form_data : UserLogin) : (exn + User) * gmap string (gmap string string) :=
  let user_in_db := db !! login_username form_data in
  if falsy_entry user_in_db
     || negb (bool_decide
                ((user_in_db ≫= fun d => d !! "password")
                 = Some (login_password form_data)))
  then (inl unauthorized, db)
  else
    match user_in_db ≫= fun d => d !! "role" with
    | Some r => (inr (mkUser (login_username form_data) r), db)
    | None => (inl (KeyError "role"), db)
    end.

End Auth.

(** ** A state-and-exception monad

    [M W A] is a computation over a world [W] that either returns an [A] or
    raises an [exn]; the world it leaves behind is kept in both cases, as
    printing and deleting are not undone by an exception. *)

Definition M (W A : Type) : Type := W -> (exn + A) * W.

Definition ret {W A : Type} (a : A) : M W A := fun w => (inr a, w).

Definition bind {W A B : Type} (c : M W A) (k : A -> M W B) : M W B :=
  fun w =>
    match c w with
    | (inr a, w') => k a w'
    | (inl e, w') => (inl e, w')
    end.

Definition lift {W A : Type} (r : exn + A) : M W A := fun w => (r, w).

Notation "'let*' x ':=' c 'in' k" := (bind c (fun x => k))
  (at level 10, x name, c at level 100, k at level 200).
Notation "c '>>' k" := (bind c (fun _ => k))
  (at level 100, k at level 200, right associativity).

(** A [for] loop that threads an accumulator and stops at the first
    exception. *)
Fixpoint for_each {W A B : Type} (body : B -> A -> M W A) (l : list B) (acc : A)
    : M W A :=
  match l with
  | [] => ret acc
  | x :: l' => let* acc' := body x acc in for_each body l' acc'
  end.

(** ** Paths and the directory tree read by [os.walk] *)

(** A path is the list of its components. *)
Definition path : Type := list string.

(** [os.path.join(dirpath, name)]. *)
Definition path_join (dirpath : path) (name : string) : path := dirpath ++ [name].

(** [pathlib.Path(dirpath).name]: the last component, empty for the root. *)
Definition path_name (dirpath : path) : string := List.last dirpath "".

(** [str(path)]. *)
Definition path_str (p : path) : string := "/" +:+ String.concat "/" p.

(** [s.endswith(suffix)]. *)
Definition endswith (s suffix : string) : bool :=
  let n := String.length s in
  let m := String.length suffix in
  (m <=? n)%nat && String.eqb (String.substring (n - m) m s) suffix.

Record file : Type := mkFile {
  file_name : string;
  file_data : string
}.

#[global] Instance file_eq_dec : EqDecision file.
Proof. solve_decision. Defined.

(** A directory: its regular files and its named subdirectories. *)
#[local] Set Warnings "-register-all".
Inductive tree : Type :=
| Node (files : list file) (subdirs : list (string * tree)).

(** [os.walk(top)], top-down: the triple of the directory itself, then the
    walks of its subdirectories in listing order. *)
Fixpoint walk (dirpath : path) (t : tree) : list (path * list string * list file) :=
  match t with
  | Node files subdirs =>
      (dirpath, map fst subdirs, files)
      :: flat_map (fun sub => walk (path_join dirpath (fst sub)) (snd sub)) subdirs
  end.

(** ** backend/app/data_loader.py *)

Module Loader.

Section Ingestion.

(** The embedding vectors and [HuggingFaceEmbeddings.embed_documents]. *)
Variable vector : Type.
Variable embed : string -> vector.

(** [open(file_path, "r", encoding="utf-8").read()], which raises on
    bytes that are not UTF-8. *)
Variable read_text : path -> string -> exn + string.
(** [MarkdownHeaderTextSplitter(headers_to_split_on).split_text]. *)
Variable markdown_split_text : string -> list Document.
(** [PyPDFLoader(file_path).load()] and [CSVLoader(file_path).load()]. *)
Variable pdf_load : path -> string -> exn + list Document.
Variable csv_load : path -> string -> exn + list Document.
(** [RecursiveCharacterTextSplitter(chunk_size=1000, chunk_overlap=100).split_text]. *)
Variable split_text : string -> list string.

(** The location of the checkout, [pathlib.Path(__file__).parent.parent.parent]. *)
Variable PROJECT_ROOT : path.

Definition DATA_PATH : path := path_join PROJECT_ROOT "data".
Definition CHROMA_PERSIST_DIRECTORY : path := path_join PROJECT_ROOT "chroma_db".
Definition CHROMA_COLLECTION_NAME : string := "finsolve_chatbot".
Definition EMBEDDING_MODEL_NAME : string := "all-MiniLM-L6-v2".

(** The world of the ingestion job: the directory tree found at the path
    that is walked ([DATA_PATH] for the job; [None] if there is none), the
    persisted collection under [CHROMA_PERSIST_DIRECTORY] ([None] if that
    directory does not exist) and what has been printed. *)
Record World : Type := mkWorld {
  data_dir : option tree;
  chroma_db : option (list (Document * vector));
  stdout : list string
}.

Definition print (line : string) : M World unit :=
  fun w => (inr tt, mkWorld (data_dir w) (chroma_db w) (stdout w ++ [line])).

(** The world [w] after the lines [out] have been printed. *)
Definition printed (w : World) (out : list string) : World :=
  mkWorld (data_dir w) (chroma_db w) (stdout w ++ out).

(** The documents that the branch on the file extension assigns to [docs]
    ([None] when no loader applies), before the role is stamped. *)
Definition load_file (dirpath : path) (f : file) : exn + option (list Document) :=
  let filename := file_name f in
  let file_path := path_join dirpath filename in
  if endswith filename ".md" then
    match read_text file_path (file_data f) with
    | inl e => inl e
    | inr markdown_content =>
        let docs := markdown_split_text markdown_content in
        inr (Some (map (set_metadata "source" (MStr filename)) docs))
    end
  else
    let loader :=
      if endswith filename ".pdf" then Some pdf_load
      else if endswith filename ".csv" then Some csv_load
      else None in
    match loader with
    | Some load =>
        match load file_path (file_data f) with
        | inl e => inl e
        | inr docs => inr (Some docs)
        end
    | None => inr None
    end.

(** The body of the inner loop of [get_documents_from_path]. *)
Definition process_file (dirpath : path) (f : file) (all_docs : list Document)
    : M World (list Document) :=
  let* docs := lift (load_file dirpath f) in
  match docs with
  | Some docs =>
      if truthy docs then
        let role := path_name dirpath in
        let docs := map (set_metadata "role" (MStr role)) docs in
        print ("Loaded and processed " +:+ file_name f +:+ " with role '"
               +:+ role +:+ "'") >>
        ret (all_docs ++ docs)
      else ret all_docs
  | None => ret all_docs
  end.

(** [get_documents_from_path(data_path)] over the directory [t] found at
    [data_path]. *)
Definition get_documents_from_tree (data_path : path) (t : tree)
    : M World (list Document) :=
  for_each
    (fun entry all_docs =>
       let '(dirpath, _, filenames) := entry in
       for_each (process_file dirpath) filenames all_docs)
    (walk data_path t) [].

(** [os.walk] of a directory that does not exist yields nothing. *)
Definition get_documents_from_path (data_path : path) : M World (list Document) :=
  fun w =>
    match data_dir w with
    | Some t => get_documents_from_tree data_path t w
    | None => ret [] w
    end.

(** The loops read as a function: the units of one file with their role,
    and the units of a list of sources up to the first exception.  The
    statements about [get_documents_from_path] are phrased with these. *)
Definition tag_units (dirpath : path) (f : file) : exn + list Document :=
  match load_file dirpath f with
  | inl e => inl e
  | inr (Some docs) =>
      inr (map (set_metadata "role" (MStr (path_name dirpath))) docs)
  | inr None => inr []
  end.

Fixpoint collect {B : Type} (units : B -> exn + list Document) (l : list B)
    : exn + list Document :=
  match l with
  | [] => inr []
  | x :: l' =>
      match units x with
      | inl e => inl e
      | inr docs =>
          match collect units l' with
          | inl e => inl e
          | inr rest => inr (docs ++ rest)
          end
      end
  end.

Definition entry_units (entry : path * list string * list file)
    : exn + list Document :=
  collect (tag_units (fst (fst entry))) (snd entry).

Definition documents_under (data_path : path) (dir : option tree)
    : exn + list Document :=
  match dir with
  | Some t => collect entry_units (walk data_path t)
  | None => inr []
  end.

(** The immediate subdirectory of [data_path] under which [dirpath] lies,
    if [dirpath] is below [data_path] at all. *)
Definition subdirectory_of_root (data_path dirpath : path) : option string :=
  head (drop (length data_path) dirpath).

(** [text_splitter.split_documents(documents)]: every chunk of a document
    is a new [Document] around a copy of the parent's metadata. *)
Definition split_documents (documents : list Document) : list Document :=
  flat_map
    (fun doc => map (fun chunk => mkDocument chunk (metadata doc))
                    (split_text (page_content doc)))
    documents.

(** [shutil.rmtree(CHROMA_PERSIST_DIRECTORY)]. *)
Definition rmtree_chroma : M World unit :=
  fun w => (inr tt, mkWorld (data_dir w) None (stdout w)).

(** [Chroma.from_documents(...)] on a persistent client: the directory is
    created if missing and every chunk is added with its embedding. *)
Definition chroma_from_documents (chunked_docs : list Document) : M World unit :=
  fun w =>
    (inr tt,
     mkWorld (data_dir w)
       (Some (default [] (chroma_db w)
              ++ map (fun d => (d, embed (page_content d))) chunked_docs))
       (stdout w)).

Definition rule : string := String.concat "" (replicate 20 "---").

Definition ingest_data : M World unit :=
  print "Starting data ingestion process..." >>
  let* exists_dir := (fun w => (inr (bool_decide (is_Some (chroma_db w))), w)) in
  (if exists_dir : bool then
     print ("Removing existing ChromaDB directory: "
            +:+ path_str CHROMA_PERSIST_DIRECTORY) >>
     rmtree_chroma
   else ret tt) >>
  let* documents := get_documents_from_path DATA_PATH in
  if negb (truthy documents) then
    print "No documents found. Aborting."
  else
    let chunked_docs := split_documents documents in
    print ("Split documents into " +:+ pretty (length chunked_docs) +:+ " chunks.") >>
    print ("Initializing embedding model: " +:+ EMBEDDING_MODEL_NAME) >>
    print "Connecting to ChromaDB and uploading documents..." >>
    chroma_from_documents chunked_docs >>
    print rule >>
    print "âœ… Data ingestion complete!" >>
    print ("Total chunks processed: " +:+ pretty (length chunked_docs)) >>
    print ("Collection '" +:+ CHROMA_COLLECTION_NAME
           +:+ "' is ready in ChromaDB at '"
           +:+ path_str CHROMA_PERSIST_DIRECTORY +:+ "'") >>
    print rule.

End Ingestion.

End Loader.

(** ** backend/app/rag_pipeline.py *)

Module Rag.

Definition ROLE_ACCESS_MAPPING : gmap string (list string) :=
  list_to_map
    [ ("c_level", ["c_level"; "engineering"; "marketing"; "finance"; "hr"; "general"]);
      ("engineering", ["engineering"; "general"]);
      ("marketing", ["marketing"; "general"]);
      ("finance", ["finance"; "general"]);
      ("hr", ["hr"; "general"]);
      ("employee", ["general"]) ].

(** [ROLE_ACCESS_MAPPING.get(user_role, [])]. *)
Definition accessible_roles (user_role : string) : list string :=
  default [] (ROLE_ACCESS_MAPPING !! user_role).

(** The content roles that the policy mentions at all. *)
Definition content_roles : list string :=
  concat (snd <$> map_to_list ROLE_ACCESS_MAPPING).

Definition denial : string := "Your role does not have access to any data.".

(** The metadata filter [{key: {"$in": operands}}] of the vector store. *)
Inductive where_clause : Type :=
| WhereIn (key : string) (operands : list meta_value).

(** A record satisfies the filter when it has the key and its value is one
    of the operands. *)
Definition matches (w : where_clause) (doc : Document) : bool :=
  match w with
  | WhereIn key operands =>
      match metadata doc !! key with
      | Some v => bool_decide (v ∈ operands)
      | None => false
      end
  end.

(** Insertion into a ranking that is descending by score; among equal scores
    the inserted element goes first. *)
Fixpoint insert_ranked {A : Type} (x : A * Z) (l : list (A * Z)) : list (A * Z) :=
  match l with
  | [] => [x]
  | y :: l' => if (snd x <? snd y)%Z then y :: insert_ranked x l' else x :: l
  end.

(** Descending by score.  Chunks of equal score are left in the order of
    the collection; the store itself promises no order among them, and
    nothing below depends on it. *)
Definition rank {A : Type} (l : list (A * Z)) : list (A * Z) :=
  foldr insert_ranked [] l.

Section Pipeline.

Variable vector : Type.
(** [HuggingFaceEmbeddings.embed_query], the same model as at ingestion. *)
Variable embed : string -> vector.
(** The similarity of two vectors as the store ranks it; only the order of
    the scores matters. *)
Variable similarity : vector -> vector -> Z.
(** [str] of the list of retrieved documents, as the prompt shows it. *)
Variable show_documents : list Document -> string.
(** One call of the language model. *)
Variable llm : string -> string.

(** What the process sends to its collaborators. *)
Inductive event : Type :=
| EvSearch (query : string) (k : nat) (filter : where_clause)
           (results : list (Document * Z))
| EvGenerate (prompt_text : string).

(** The opened collection [chroma_client] and the calls made so far. *)
Record World : Type := mkWorld {
  collection : list (Document * vector);
  calls : list event
}.

Definition emit (e : event) : M World unit :=
  fun w => (inr tt, mkWorld (collection w) (calls w ++ [e])).

(** The records that satisfy the filter, each with its similarity to the
    query vector, in the order of the collection. *)
Definition candidates (coll : list (Document * vector)) (query : string)
    (filter : where_clause) : list (Document * Z) :=
  let qv := embed query in
  map (fun r => (fst r, similarity qv (snd r)))
      (List.filter (fun r => matches filter (fst r)) coll).

(** The store's filtered search: the candidates ranked by similarity, cut
    to the best [k]. *)
Definition similarity_search_with_score (coll : list (Document * vector))
    (query : string) (k : nat) (filter : where_clause) : list (Document * Z) :=
  firstn k (rank (candidates coll query filter)).

(** [chroma_client.as_retriever(search_type="similarity",
    search_kwargs={"k": k, "filter": filter}).invoke(query)]. *)
Definition retriever_invoke (k : nat) (filter : where_clause) (query : string)
    : M World (list Document) :=
  fun w =>
    let results := similarity_search_with_score (collection w) query k filter in
    (inr (map fst results),
     mkWorld (collection w) (calls w ++ [EvSearch query k filter results])).

(** [prompt], the template with its two placeholders filled. *)
Definition format_prompt (context : list Document) (question : string) : string :=
  "
You are a helpful assistant for FinSolve Technologies.
Answer the question based only on the following context.
If you don't know the answer, just say that you don't know.

Context:
" +:+ show_documents context +:+ "

Question:
" +:+ question +:+ "
".

Definition llm_invoke (prompt_text : string) : M World string :=
  emit (EvGenerate prompt_text) >> ret (llm prompt_text).

Definition get_rag_response (query user_role : string) : M World string :=
  let accessible_roles := accessible_roles user_role in
  if negb (truthy accessible_roles) then
    ret denial
  else
    let* context := retriever_invoke 5 (WhereIn "role" (MStr <$> accessible_roles)) query in
    llm_invoke (format_prompt context query).

(** The calls that a computation adds to the log, and the scored chunks
    that the searches among them returned. *)
Definition new_calls {A : Type} (c : M World A) (w : World) : list event :=
  drop (length (calls w)) (calls (snd (c w))).

Definition retrieved (evs : list event) : list (Document * Z) :=
  flat_map (fun e => match e with
                     | EvSearch _ _ _ results => results
                     | EvGenerate _ => []
                     end) evs.

(** The role filter that [get_rag_response] builds for a caller. *)
Definition role_filter (user_role : string) : where_clause :=
  WhereIn "role" (MStr <$> accessible_roles user_role).

End Pipeline.

End Rag.

(** ** backend/app/main.py *)

Module Main.

Record ChatRequest : Type := mkChatRequest {
  query : string;
  username : string;
  password : string
}.

Section Endpoint.

Variable vector : Type.
Variable embed : string -> vector.
Variable similarity : vector -> vector -> Z.
Variable show_documents : list Document -> string.
Variable llm : string -> string.

(** [chat_with_bot]: the [HTTPException] of the authentication is raised
    again, otherwise the answer for the role of the authenticated user is
    the response. *)
Definition chat_with_bot (request : ChatRequest) : M (Rag.World vector) string :=
  let user_login_data := Auth.mkUserLogin (username request) (password request) in
  let* current_user := lift (fst (Auth.get_current_user Auth.MOCK_USERS user_login_data)) in
  Rag.get_rag_response vector embed similarity show_documents llm
    (query request) (Auth.role current_user).

End Endpoint.

End Main.

(** ** Concrete collaborators and small worlds to run the code on *)

Module Sample.

Definition embed (s : string) : Z := Z.of_nat (String.length s).

Definition similarity (a b : Z) : Z := (- Z.abs (a - b))%Z.

Definition show_documents (docs : list Document) : string :=
  String.concat "; " (page_content <$> docs).

Definition llm (prompt_text : string) : string := "I don't know.".

Definition read_text (file_path : path) (data : string) : exn + string :=
  inr data.

Definition markdown_split_text (text : string) : list Document :=
  if bool_decide (text = "") then [] else [mkDocument text ∅].

Definition pdf_load (file_path : path) (data : string) : exn + list Document :=
  if String.prefix "%PDF" data
  then inr [mkDocument data {[ "source" := MStr (path_str file_path) ]}]
  else inl (LoaderError (path_str file_path)).

Definition csv_load (file_path : path) (data : string) : exn + list Document :=
  inr [mkDocument data {[ "source" := MStr (path_str file_path) ]}].

(** Windows of eight characters that overlap by two. *)
Fixpoint windows (fuel : nat) (s : string) : list string :=
  match fuel with
  | O => []
  | S fuel' =>
      if (String.length s <=? 8)%nat then [s]
      else String.substring 0 8 s
           :: windows fuel' (String.substring 6 (String.length s - 6) s)
  end.

Definition split_text (s : string) : list string := windows (String.length s) s.

Definition PROJECT_ROOT : path := ["srv"; "app"].

Definition get_documents_from_path :=
  Loader.get_documents_from_path Z read_text markdown_split_text pdf_load csv_load.

Definition ingest_data :=
  Loader.ingest_data Z embed read_text markdown_split_text pdf_load csv_load
    split_text PROJECT_ROOT.

Definition get_rag_response :=
  Rag.get_rag_response Z embed similarity show_documents llm.

(** [data/finance/reports/q3.md]: a file two levels below the root. *)
Definition nested_tree : tree :=
  Node [] [ ("finance",
             Node [] [ ("reports",
                        Node [mkFile "q3.md" "Q3 marketing spend was $500,000"] []) ]) ].

(** [data/general/] with a PDF that does not parse next to a good file. *)
Definition broken_tree : tree :=
  Node [] [ ("general",
             Node [ mkFile "scan.pdf" "not a pdf";
                    mkFile "handbook.md" "Leave policy" ] []) ].

(** A flat corpus: one file per role directory. *)
Definition flat_tree : tree :=
  Node [] [ ("finance", Node [mkFile "q3.md" "Q3 marketing spend was $500,000"] []);
            ("general", Node [mkFile "handbook.md" "Leave policy"] []) ].

(** A previously ingested index with one chunk. *)
Definition old_index : list (Document * Z) :=
  [ (mkDocument "Leave policy"
       {[ "source" := MStr "handbook.md"; "role" := MStr "general" ]}, 12%Z) ].

(** An empty data directory next to a good index. *)
Definition empty_corpus_world : Loader.World Z :=
  Loader.mkWorld Z (Some (Node [] [])) (Some old_index) [].

(** A collection in which the finance chunk is the nearest neighbour of the
    query ["budget"]. *)
Definition collection3 : list (Document * Z) :=
  [ (mkDocument "budget" {[ "role" := MStr "finance" ]}, 6%Z);
    (mkDocument "leave policy" {[ "role" := MStr "hr" ]}, 12%Z);
    (mkDocument "holidays" {[ "role" := MStr "general" ]}, 8%Z) ].

Definition world3 : Rag.World Z := Rag.mkWorld Z collection3 [].

Definition data_path : path := ["srv"; "app"; "data"].

Definition nested_world : Loader.World Z := Loader.mkWorld Z (Some nested_tree) None [].
Definition broken_world : Loader.World Z := Loader.mkWorld Z (Some broken_tree) None [].
Definition flat_world : Loader.World Z := Loader.mkWorld Z (Some flat_tree) None [].

Definition q3_unit (role : string) : Document :=
  mkDocument "Q3 marketing spend was $500,000"
    {[ "source" := MStr "q3.md"; "role" := MStr role ]}.

Definition handbook_unit : Document :=
  mkDocument "Leave policy" {[ "source" := MStr "handbook.md"; "role" := MStr "general" ]}.

End Sample.

(** ** backend/app/rag_pipeline.py: start of the module and [test_retriever] *)

(** [str(e)] of an exception, as an f-string shows it. *)
Definition exn_str (e : exn) : string :=
  match e with
  | HTTPException status_code detail => pretty status_code +:+ ": " +:+ detail
  | KeyError key => "'" +:+ key +:+ "'"
  | LoaderError file_path => file_path
  end.

(** A Python string is a sequence of code points; a string here is its
    UTF-8 encoding, in which every code point is one byte that is not of
    the form [10xxxxxx], followed by bytes that are. *)
Definition continuation_byte (b : Ascii.ascii) : bool :=
  match b with
  | Ascii.Ascii _ _ _ _ _ _ b6 b7 => b7 && negb b6
  end.

(** [len(s)]. *)
Fixpoint code_points (s : string) : nat :=
  match s with
  | EmptyString => 0
  | String b s' => (if continuation_byte b then 0 else 1) + code_points s'
  end.

(** [s[:n]]: the first [n] code points. *)
Fixpoint take_code_points (n : nat) (s : string) : string :=
  match s with
  | EmptyString => EmptyString
  | String b s' =>
      if continuation_byte b then String b (take_code_points n s')
      else match n with
           | O => EmptyString
           | S n' => String b (take_code_points n' s')
           end
  end.

(** [try: body except Exception as e: handler(e)]. *)
Definition try_except {W A : Type} (body : M W A) (handler : exn -> M W A) : M W A :=
  fun w =>
    match body w with
    | (inl e, w') => handler e w'
    | (inr a, w') => (inr a, w')
    end.

Module Startup.

Section Module_level.

Variable vector : Type.

(** How the import of the module ends: the process has exited, or the
    module is loaded with its [chroma_client]. *)
Inductive outcome : Type :=
| Exited (out : list string)
| Serving (w : Rag.World vector) (out : list string).

(** The top-level statements of the module: the key is read from the
    environment, then the persisted collection is opened; [opened] is what
    the constructor of [Chroma] and [count()] give, an exception or the
    records of the collection. *)
Definition load_module (environ : gmap string string)
    (opened : exn + list (Document * vector)) : outcome :=
  let google_api_key := environ !! "GOOGLE_API_KEY" in
  if bool_decide (google_api_key = None) || bool_decide (google_api_key = Some "") then
    Exited ["Error: GOOGLE_API_KEY not found in environment variables."]
  else
    match opened with
    | inr coll =>
        Serving (Rag.mkWorld vector coll [])
          (if (length coll =? 0)%nat
           then ["Warning: ChromaDB collection is empty. Did the data loader run correctly?"]
           else [])
    | inl e =>
        Exited ["Error initializing ChromaDB: " +:+ exn_str e;
                "Please ensure the database has been created by running the data_loader.py script."]
    end.

End Module_level.

End Startup.

Module Debug.

Section Retriever.

Variable vector : Type.
Variable embed : string -> vector.
Variable similarity : vector -> vector -> Z.

(** The state that [test_retriever] works on: the world of the pipeline
    and the lines printed. *)
Record Console : Type := mkConsole {
  rag : Rag.World vector;
  out : list string
}.

Definition print (line : string) : M Console unit :=
  fun c => (inr tt, mkConsole (rag c) (out c ++ [line])).

(** A computation of the pipeline, run on the pipeline's part of the
    state. *)
Definition in_rag {A : Type} (m : M (Rag.World vector) A) : M Console A :=
  fun c => (fst (m (rag c)), mkConsole (snd (m (rag c))) (out c)).

(** [str(v)] of a metadata value. *)
Definition meta_str (v : meta_value) : string :=
  match v with
  | MStr s => s
  | MInt n => pretty n
  end.

(** [doc.metadata.get(key, 'N/A')] inside an f-string. *)
Definition metadata_get (doc : Document) (key : string) : string :=
  from_option meta_str "N/A" (metadata doc !! key).

(** [doc.page_content[:250]]. *)
Definition content_preview (doc : Document) : string :=
  take_code_points 250 (page_content doc).

(** The body of the loop over [enumerate(relevant_docs)]; the accumulator
    is the index [i]. *)
Definition print_document (doc : Document) (i : nat) : M Console nat :=
  print ("
--- Document " +:+ pretty (i + 1) +:+ " ---") >>
  print ("Source: " +:+ metadata_get doc "source") >>
  print ("Role: " +:+ metadata_get doc "role") >>
  print ("Content: " +:+ content_preview doc +:+ "...") >>
  ret (S i).

(** The retrieval of this model does not raise, so the handler of the
    [try] statement is written down but never entered. *)
Definition test_retriever (query user_role : string) : M Console unit :=
  print "
--- Testing Retriever ---" >>
  print ("Role: '" +:+ user_role +:+ "'") >>
  print ("Query: '" +:+ query +:+ "'") >>
  let accessible_roles := Rag.accessible_roles user_role in
  if negb (truthy accessible_roles) then
    print "Result: No accessible roles found for this user."
  else
    try_except
      (let* relevant_docs :=
         in_rag (Rag.retriever_invoke vector embed similarity 5
                   (Rag.WhereIn "role" (MStr <$> accessible_roles)) query) in
       print ("
Found " +:+ pretty (length relevant_docs) +:+ " documents:") >>
       if negb (truthy relevant_docs) then
         print "--> The retriever found NO relevant documents for this query and role." >>
         print "--> This is why the chatbot says 'I don't know'." >>
         print "--> Check if the data was loaded correctly with the right 'role' metadata."
       else
         for_each print_document relevant_docs 0%nat >> ret tt)
      (fun e => print ("An error occurred during retrieval: " +:+ exn_str e)) >>
    print "--- End of Retriever Test ---
".

(** The four lines that the loop prints for the document at index [i]. *)
Definition document_lines (i : nat) (doc : Document) : list string :=
  [ "
--- Document " +:+ pretty (i + 1) +:+ " ---";
    "Source: " +:+ metadata_get doc "source";
    "Role: " +:+ metadata_get doc "role";
    "Content: " +:+ content_preview doc +:+ "..." ].

End Retriever.

End Debug.

(** ** frontend/app.py

    The Streamlit script is run from top to bottom once for every
    interaction; [st.rerun()] stops the run and starts the script again.
    One run is a pass over the session state with the values that the
    widgets return in it. *)

Module Frontend.

Definition FASTAPI_URL : string := "http://127.0.0.1:8000/api/chat".

(** One entry of [st.session_state.messages]. *)
Record Message : Type := mkMessage {
  role : string;
  content : string
}.

(** [st.session_state] as the browser session has it when a run starts: a
    key is missing until the script has set it. *)
Record RawSession : Type := mkRawSession {
  raw_messages : option (list Message);
  raw_logged_in : option bool;
  raw_username : option string;
  raw_password : option string
}.

(** [st.session_state] once the four keys are there. *)
Record Session : Type := mkSession {
  messages : list Message;
  logged_in : bool;
  username : string;
  password : string
}.

(** The four [if key not in st.session_state] statements. *)
Definition initialize (raw : RawSession) : Session :=
  mkSession (default [] (raw_messages raw))
            (default false (raw_logged_in raw))
            (default "" (raw_username raw))
            (default "" (raw_password raw)).

(** What the widgets return in one run of the script. *)
Record Widgets : Type := mkWidgets {
  username_input : string;
  password_input : string;
  login_button : bool;
  logout_button : bool;
  chat_input : option string
}.

(** What a run puts on the page. *)
Inductive element : Type :=
| Title (text : string)
| Caption (text : string)
| Header (text : string)
| TextInput (label : string)
| Button (label : string)
| ChatInput (placeholder : string)
| Success (text : string)
| Error (text : string)
| Info (text : string)
| ChatMessage (name : string) (text : string).

(** What [requests.post] gives: a response with its status code, the text
    of the [HTTPError] that [raise_for_status] would raise and its JSON
    object, or a [RequestException] with its text. *)
Inductive reply : Type :=
| Response (status_code : Z) (http_error : string) (json : gmap string string)
| RequestFailed (error : string).

(** The state of one run: the session, the page so far, the requests sent
    and whether [st.rerun()] has been called. *)
Record Pass : Type := mkPass {
  session : Session;
  page : list element;
  sent : list Main.ChatRequest;
  rerun : bool
}.

(** Python truthiness of a string. *)
Definition nonempty (s : string) : bool := negb (String.eqb s "").

Section Script.

(** [requests.post(FASTAPI_URL, json=payload)]. *)
Variable post : Main.ChatRequest -> reply.

(** The [try] statement around the request: the text that is shown and
    stored as the answer. *)
Definition bot_response_of (r : reply) : string :=
  match r with
  | Response status_code http_error json =>
      if (400 <=? status_code)%Z && (status_code <? 600)%Z then
        if (status_code =? 401)%Z
        then "Authentication failed. Please check your username and password."
        else "An HTTP error occurred: " +:+ http_error
      else default "Sorry, I encountered an error." (json !! "response")
  | RequestFailed error =>
      "Failed to connect to the chatbot API. Please ensure the backend is running. Error: "
      +:+ error
  end.

Definition show (e : element) (p : Pass) : Pass :=
  mkPass (session p) (page p ++ [e]) (sent p) (rerun p).

Definition set_session (s : Session) (p : Pass) : Pass :=
  mkPass s (page p) (sent p) (rerun p).

(** [st.rerun()]. *)
Definition st_rerun (p : Pass) : Pass :=
  mkPass (session p) (page p) (sent p) true.

(** The page configuration, the title and the caption. *)
Definition begin (s : Session) : Pass :=
  mkPass s [Title "🤖 FinSolve Internal Chatbot";
            Caption "Your AI-powered assistant for secure, role-based data access."]
         [] false.

(** The sidebar while nobody is logged in: the form and the handler of the
    login button. *)
Definition sidebar_login (w : Widgets) (p : Pass) : Pass :=
  let p := show (Header "Login") p in
  if negb (logged_in (session p)) then
    let p := show (Button "Login")
               (show (TextInput "Password") (show (TextInput "Username") p)) in
    if login_button w then
      if nonempty (username_input w) && nonempty (password_input w) then
        let s := session p in
        let p := set_session
                   (mkSession (messages s) true (username_input w) (password_input w)) p in
        st_rerun (show (Success ("Logged in as " +:+ username_input w)) p)
      else show (Error "Please enter both username and password.") p
    else p
  else p.

(** The sidebar while somebody is logged in: the status and the handler of
    the logout button. *)
Definition sidebar_logout (w : Widgets) (p : Pass) : Pass :=
  if rerun p then p
  else if logged_in (session p) then
    let p := show (Button "Logout")
               (show (Success ("Logged in as: " +:+ username (session p))) p) in
    if logout_button w then
      st_rerun (set_session (mkSession [] false "" "") p)
    else p
  else p.

(** The main part of the page: the history, the chat box and the exchange
    with the backend. *)
Definition chat_interface (w : Widgets) (p : Pass) : Pass :=
  if rerun p then p
  else if logged_in (session p) then
    let s := session p in
    let p := mkPass s
               (page p ++ map (fun m => ChatMessage (role m) (content m)) (messages s))
               (sent p) (rerun p) in
    let p := show (ChatInput "Ask me anything about FinSolve...") p in
    match chat_input w with
    | Some prompt =>
        if nonempty prompt then
          let payload := Main.mkChatRequest prompt (username s) (password s) in
          let bot_response := bot_response_of (post payload) in
          mkPass (mkSession (messages s ++ [mkMessage "user" prompt;
                                            mkMessage "assistant" bot_response])
                            (logged_in s) (username s) (password s))
                 (page p ++ [ChatMessage "user" prompt;
                             ChatMessage "assistant" bot_response])
                 (sent p ++ [payload]) (rerun p)
        else p
    | None => p
    end
  else show (Info "Please log in using the sidebar to start chatting.") p.

(** One run of the script. *)
Definition script_pass (w : Widgets) (s : Session) : Pass :=
  chat_interface w (sidebar_logout w (sidebar_login w (begin s))).

(** The widgets of the run that follows [st.rerun()]: no button is
    pressed and nothing is submitted. *)
Definition idle (w : Widgets) : Widgets :=
  mkWidgets (username_input w) (password_input w) false false None.

(** One interaction: the run it triggers and, after [st.rerun()], the run
    that replaces it. *)
Definition interact (w : Widgets) (s : Session) : Pass :=
  let first := script_pass w s in
  if rerun first then
    let second := script_pass (idle w) (session first) in
    mkPass (session second) (page second) (sent first ++ sent second) (rerun second)
  else first.

(** A browser session: the interactions one after the other. *)
Fixpoint browse (ws : list Widgets) (s : Session) : Session * list Main.ChatRequest :=
  match ws with
  | [] => (s, [])
  | w :: ws' =>
      let p := interact w s in
      let '(s', reqs) := browse ws' (session p) in
      (s', sent p ++ reqs)
  end.

(** The history is a sequence of exchanges, a question of the user and the
    answer shown for it. *)
Fixpoint exchanges (ms : list Message) : bool :=
  match ms with
  | [] => true
  | q :: a :: ms' =>
      String.eqb (role q) "user" && String.eqb (role a) "assistant" && exchanges ms'
  | _ => false
  end.

(** A session as the script keeps it: the history is made of exchanges;
    with somebody logged in both credentials are non-empty, with nobody
    logged in the history and the credentials are empty. *)
Definition consistent (s : Session) : Prop :=
  exchanges (messages s) = true
  ∧ if logged_in s
    then username s ≠ "" ∧ password s ≠ ""
    else messages s = [] ∧ username s = "" ∧ password s = "".

(** The session of a browser that has just opened the page. *)
Definition fresh : Session := initialize (mkRawSession None None None None).

End Script.

Section Backend.

Variable vector : Type.
Variable embed : string -> vector.
Variable similarity : vector -> vector -> Z.
Variable show_documents : list Document -> string.
Variable llm : string -> string.

(** The response that the web framework makes of the endpoint's outcome:
    the [ChatResponse] as a JSON object with status 200, an [HTTPException]
    with its own status, any other exception with status 500.  Of the text
    of the [HTTPError] only the beginning is kept (the reason phrase and
    the URL that follow it are left out); it is shown for statuses other
    than 401 only. *)
Definition serve (outcome : exn + string) : reply :=
  match outcome with
  | inr text => Response 200 "" {[ "response" := text ]}
  | inl (HTTPException status_code detail) =>
      Response status_code (pretty status_code +:+ " Client Error") {[ "detail" := detail ]}
  | inl _ => Response 500 "500 Server Error" ∅
  end.

(** The backend behind [FASTAPI_URL] with the pipeline in the world [w]. *)
Definition backend (w : Rag.World vector) (payload : Main.ChatRequest) : reply :=
  serve (fst (Main.chat_with_bot vector embed similarity show_documents llm payload w)).

End Backend.

End Frontend.

(** * Properties *)

(** ** Authentication *)

Section AuthFacts.

Import Auth.

(** Every entry of the mock database is a non-empty dictionary that
    stores the shared password and a role. *)
Lemma MOCK_USERS_entries :
  map_Forall (fun _ d => d ≠ ∅ ∧ d !! "password" = Some "password123"
                         ∧ is_Some (d !! "role")) MOCK_USERS.
Proof. eapply (bool_decide_unpack _). vm_compute. reflexivity. Qed.

Lemma falsy_entry_stored name d :
  MOCK_USERS !! name = Some d -> falsy_entry (Some d) = false.
Proof.
  intros Hd. destruct (map_Forall_lookup_1 _ _ _ _ MOCK_USERS_entries Hd) as [Hne _].
  simpl. by apply bool_decide_eq_false.
Qed.

(** A successful authentication against any database found an entry
    with the submitted password and returns the role stored in it. *)
Lemma get_current_user_inr db form_data u db' :
  get_current_user db form_data = (inr u, db') ->
  ∃ d, db !! login_username form_data = Some d
       ∧ d !! "password" = Some (login_password form_data)
       ∧ d !! "role" = Some (role u)
       ∧ username u = login_username form_data ∧ db' = db.
Proof.
  unfold get_current_user.
  destruct (db !! login_username form_data) as [d|]; simpl; [|discriminate].
  destruct (bool_decide (d = ∅)); simpl; [discriminate|].
  destruct (bool_decide (d !! "password" = Some (login_password form_data)))
    eqn:Hpw; simpl; [|discriminate].
  apply bool_decide_eq_true in Hpw.
  destruct (d !! "role") as [r|] eqn:Hr; [|discriminate].
  intros [= <- <-]. exists d. auto.
Qed.

(** Against [MOCK_USERS] the only exception is the 401. *)
Lemma get_current_user_inl form_data e db' :
  get_current_user MOCK_USERS form_data = (inl e, db') ->
  e = unauthorized ∧ db' = MOCK_USERS.
Proof.
  unfold get_current_user.
  destruct (MOCK_USERS !! login_username form_data) as [d|] eqn:Hd; simpl.
  - destruct (map_Forall_lookup_1 _ _ _ _ MOCK_USERS_entries Hd)
      as (_ & _ & r & Hr).
    rewrite Hr.
    destruct (bool_decide (d = ∅)
              || negb (bool_decide (d !! "password" = Some (login_password form_data))));
      [|discriminate].
    by intros [= <- <-].
  - by intros [= <- <-].
Qed.

(** C10. [get_current_user] raises the 401 [HTTPException] exactly when
    the username is no key of [MOCK_USERS] or the password differs from
    the stored one; otherwise it returns the [User] with the submitted
    username and the stored role; the database is returned unchanged. *)
Theorem get_current_user_spec (form_data : UserLogin) :
  let name := login_username form_data in
  let res := get_current_user MOCK_USERS form_data in
  let rejected :=
    MOCK_USERS !! name = None
    ∨ ∃ d, MOCK_USERS !! name = Some d
           ∧ d !! "password" ≠ Some (login_password form_data) in
  snd res = MOCK_USERS
  ∧ ((∃ detail, fst res = inl (HTTPException 401 detail)) ↔ rejected)
  ∧ (¬ rejected ->
     ∃ d r, MOCK_USERS !! name = Some d ∧ d !! "role" = Some r
            ∧ fst res = inr (mkUser name r)).
Proof.
  intros name res rejected. subst res rejected. unfold get_current_user.
  fold name. destruct (MOCK_USERS !! name) as [d|] eqn:Hd.
  - pose proof (falsy_entry_stored _ _ Hd) as Hf.
    destruct (map_Forall_lookup_1 _ _ _ _ MOCK_USERS_entries Hd)
      as (_ & _ & r & Hr).
    rewrite Hf. cbn [orb option_bind mbind]. simpl.
    destruct (bool_decide (d !! "password" = Some (login_password form_data)))
      eqn:Hpw; simpl.
    + apply bool_decide_eq_true in Hpw. rewrite Hr. simpl.
      split; [reflexivity|]. split.
      * split.
        -- intros [detail Habs]. discriminate.
        -- intros [Habs | (d' & Hd' & Hne)]; [discriminate|].
           injection Hd' as <-. contradiction.
      * intros _. exists d, r. auto.
    + apply bool_decide_eq_false in Hpw.
      split; [reflexivity|]. split.
      * split.
        -- intros _. right. exists d. auto.
        -- intros _. exists "Incorrect username or password". reflexivity.
      * intros Hn. exfalso. apply Hn. right. exists d. auto.
  - simpl. split; [reflexivity|]. split.
    + split.
      * intros _. by left.
      * intros _. exists "Incorrect username or password". reflexivity.
    + intros Hn. exfalso. apply Hn. by left.
Qed.

Lemma get_current_user_spec_witness :
  ∃ d r, MOCK_USERS !! "lisa_h" = Some d ∧ d !! "role" = Some r
         ∧ fst (get_current_user MOCK_USERS (mkUserLogin "lisa_h" "password123"))
           = inr (mkUser "lisa_h" r).
Proof.
  apply (proj2 (proj2 (get_current_user_spec (mkUserLogin "lisa_h" "password123")))).
  intros [Hnone | (d & Hd & Hne)].
  - vm_compute in Hnone. discriminate.
  - vm_compute in Hd. injection Hd as <-. apply Hne. vm_compute. reflexivity.
Defined.

End AuthFacts.

(** ** The access policy *)

Section PolicyFacts.

Import Rag.

Lemma ROLE_ACCESS_MAPPING_entries :
  map_Forall (fun caller roles =>
                roles ≠ [] ∧ "general" ∈ roles
                ∧ (caller ∈ content_roles -> caller ∈ roles)
                ∧ (caller ≠ "employee" -> caller ∈ roles))
             ROLE_ACCESS_MAPPING.
Proof. eapply (bool_decide_unpack _). vm_compute. reflexivity. Qed.

Lemma accessible_roles_key caller roles :
  ROLE_ACCESS_MAPPING !! caller = Some roles -> accessible_roles caller = roles.
Proof. unfold accessible_roles. by intros ->. Qed.

Lemma accessible_roles_unknown caller :
  ROLE_ACCESS_MAPPING !! caller = None -> accessible_roles caller = [].
Proof. unfold accessible_roles. by intros ->. Qed.

(** The only way to an empty accessible list is an unknown caller role. *)
Lemma accessible_roles_nil caller :
  accessible_roles caller = [] ↔ ROLE_ACCESS_MAPPING !! caller = None.
Proof.
  split; [|apply accessible_roles_unknown].
  unfold accessible_roles. destruct (ROLE_ACCESS_MAPPING !! caller) as [roles|] eqn:Hk;
    [|done].
  simpl. intros ->.
  by destruct (map_Forall_lookup_1 _ _ _ _ ROLE_ACCESS_MAPPING_entries Hk) as [? _].
Qed.

(** C7. A caller role that is a key of the mapping may read ["general"],
    and its own name whenever that name is a content role of the policy
    (every key but ["employee"]); a caller role that is no key resolves to
    the empty list. *)
Theorem access_policy_invariant (caller : string) :
  match ROLE_ACCESS_MAPPING !! caller with
  | Some roles =>
      accessible_roles caller = roles
      ∧ "general" ∈ roles
      ∧ (caller ∈ content_roles -> caller ∈ roles)
      ∧ (caller ≠ "employee" -> caller ∈ roles)
  | None => accessible_roles caller = []
  end.
Proof.
  destruct (ROLE_ACCESS_MAPPING !! caller) as [roles|] eqn:Hk.
  - destruct (map_Forall_lookup_1 _ _ _ _ ROLE_ACCESS_MAPPING_entries Hk)
      as (_ & Hgen & Hown & Hother).
    split; [by apply accessible_roles_key|]. by repeat split.
  - by apply accessible_roles_unknown.
Qed.

Lemma access_policy_invariant_witness :
  "hr" ∈ accessible_roles "hr" ∧ "general" ∈ accessible_roles "hr"
  ∧ accessible_roles "intern" = [].
Proof.
  pose proof (access_policy_invariant "hr") as Hhr.
  pose proof (access_policy_invariant "intern") as Hintern.
  change (ROLE_ACCESS_MAPPING !! "hr") with (Some ["hr"; "general"]) in Hhr.
  change (ROLE_ACCESS_MAPPING !! "intern") with (@None (list string)) in Hintern.
  destruct Hhr as (Heq & Hgen & Hown & _).
  rewrite Heq. split; [|by split].
  apply Hown. apply (bool_decide_unpack _). vm_compute. reflexivity.
Defined.

(** The caller role ["employee"] is the one key that does not list
    itself: no content is filed under that name. *)
Lemma employee_reads_general_only :
  accessible_roles "employee" = ["general"] ∧ "employee" ∉ content_roles.
Proof.
  split; [vm_compute; reflexivity|].
  eapply (bool_decide_unpack _). vm_compute. reflexivity.
Qed.

End PolicyFacts.

(** ** Ranking *)

Section RankFacts.

Import Rag.

Context {A : Type}.
Implicit Types (x : A * Z) (l : list (A * Z)).

Lemma insert_ranked_perm x l : insert_ranked x l ≡ₚ x :: l.
Proof.
  induction l as [|y l IH]; simpl; [done|].
  destruct (snd x <? snd y)%Z; [|done].
  rewrite IH. apply Permutation_swap.
Qed.

Lemma rank_perm l : rank l ≡ₚ l.
Proof.
  induction l as [|x l IH]; simpl; [done|].
  by rewrite insert_ranked_perm, IH.
Qed.

Lemma elem_of_rank x l : x ∈ rank l ↔ x ∈ l.
Proof. by rewrite rank_perm. Qed.

End RankFacts.

(** ** The query pipeline *)

Section RagFacts.

Import Rag.

Context {vector : Type}.
Context (embed : string -> vector) (similarity : vector -> vector -> Z).
Context (show_documents : list Document -> string) (llm : string -> string).

Local Abbreviation get_rag_response :=
  (get_rag_response vector embed similarity show_documents llm).
Local Abbreviation search := (similarity_search_with_score vector embed similarity).
Local Abbreviation candidates := (candidates vector embed similarity).
Local Abbreviation format_prompt := (format_prompt show_documents).
Local Abbreviation World := (World vector).
Local Abbreviation retrieved := Rag.retrieved.
Local Abbreviation new_calls := (new_calls vector).
Local Abbreviation collection := (collection vector).
Local Abbreviation calls := (calls vector).

Implicit Types (w : World) (query user_role : string).

Lemma truthy_false {B : Type} (l : list B) : truthy l = false ↔ l = [].
Proof. by destruct l. Qed.

Lemma get_rag_response_denied query user_role w :
  accessible_roles user_role = [] ->
  get_rag_response query user_role w = (inr denial, w).
Proof. intros Hnil. unfold Rag.get_rag_response. by rewrite Hnil. Qed.

Lemma get_rag_response_granted query user_role w :
  accessible_roles user_role ≠ [] ->
  let results := search (collection w) query 5 (role_filter user_role) in
  let prompt_text := format_prompt (map fst results) query in
  get_rag_response query user_role w
  = (inr (llm prompt_text),
     mkWorld _ (collection w)
       (calls w ++ [EvSearch query 5 (role_filter user_role) results;
                      EvGenerate prompt_text])).
Proof.
  intros Hne results prompt_text. unfold Rag.get_rag_response.
  destruct (truthy (accessible_roles user_role)) eqn:Ht.
  - cbn. unfold role_filter in results. subst results prompt_text.
    by rewrite <- app_assoc.
  - by apply truthy_false in Ht.
Qed.

Lemma new_calls_denied query user_role w :
  accessible_roles user_role = [] ->
  new_calls (get_rag_response query user_role) w = [].
Proof.
  intros Hnil. unfold new_calls. rewrite get_rag_response_denied by done.
  simpl. apply drop_all.
Qed.

Lemma new_calls_granted query user_role w :
  accessible_roles user_role ≠ [] ->
  let results := search (collection w) query 5 (role_filter user_role) in
  new_calls (get_rag_response query user_role) w
  = [EvSearch query 5 (role_filter user_role) results;
     EvGenerate (format_prompt (map fst results) query)].
Proof.
  intros Hne results. unfold new_calls.
  rewrite get_rag_response_granted by done. simpl. apply drop_app_length.
Qed.

(** What the searches of one call return: nothing on the denial branch,
    the filtered search on the other. *)
Lemma retrieved_get_rag_response query user_role w :
  retrieved (new_calls (get_rag_response query user_role) w)
  = if truthy (accessible_roles user_role)
    then search (collection w) query 5 (role_filter user_role)
    else [].
Proof.
  destruct (truthy (accessible_roles user_role)) eqn:Ht.
  - rewrite new_calls_granted.
    + simpl. by rewrite app_nil_r.
    + intros Hnil. by rewrite Hnil in Ht.
  - apply truthy_false in Ht. by rewrite new_calls_denied.
Qed.

(** The filter is a hard constraint of the search. *)
Lemma search_matches coll query k filter x :
  x ∈ search coll query k filter -> matches filter (fst x) = true.
Proof.
  unfold similarity_search_with_score. intros Hx.
  apply subseteq_take in Hx. rewrite elem_of_rank in Hx.
  unfold Rag.candidates in Hx. apply (list_elem_of_fmap (A:=Document * vector)) in Hx as (r & -> & Hr).
  apply list_elem_of_In, filter_In in Hr. simpl. tauto.
Qed.

Lemma matches_role_filter user_role doc :
  matches (role_filter user_role) doc = true ->
  ∃ r, metadata doc !! "role" = Some (MStr r) ∧ r ∈ accessible_roles user_role.
Proof.
  unfold role_filter, matches.
  destruct (metadata doc !! "role") as [v|]; [|discriminate].
  intros Hv. apply bool_decide_eq_true in Hv.
  apply list_elem_of_fmap in Hv as (r & -> & Hr). eauto.
Qed.

(** C1. Every chunk that the retrieval step of [get_rag_response] returns
    carries a ['role'] that is in the list resolved for the caller. *)
Theorem zero_leakage query user_role w doc score :
  (doc, score) ∈ retrieved (new_calls (get_rag_response query user_role) w) ->
  ∃ r, metadata doc !! "role" = Some (MStr r) ∧ r ∈ accessible_roles user_role.
Proof.
  rewrite retrieved_get_rag_response.
  destruct (truthy (accessible_roles user_role)).
  - intros Hin. apply search_matches in Hin. by apply matches_role_filter.
  - intros Hin. by apply elem_of_nil in Hin.
Qed.

(** C2. For a caller role that is no key of the mapping the answer is the
    fixed denial, the world is left as it was, and no call went out. *)
Theorem fail_closed_unknown_role query user_role w :
  ROLE_ACCESS_MAPPING !! user_role = None ->
  get_rag_response query user_role w = (inr denial, w)
  ∧ new_calls (get_rag_response query user_role) w = [].
Proof.
  intros Hk. apply accessible_roles_unknown in Hk.
  split; [by apply get_rag_response_denied|by apply new_calls_denied].
Qed.

(** No search is ever issued with an empty list of operands. *)
Lemma search_filter_nonempty query user_role w q k key operands results :
  EvSearch q k (WhereIn key operands) results
    ∈ new_calls (get_rag_response query user_role) w ->
  operands ≠ [].
Proof.
  destruct (decide (accessible_roles user_role = [])) as [Hnil|Hne].
  - rewrite new_calls_denied by done. intros Hin. by apply elem_of_nil in Hin.
  - rewrite new_calls_granted by done. unfold role_filter.
    intros Hin. apply elem_of_cons in Hin as [Heq|Hin].
    + injection Heq as _ _ _ -> _. intros Hnil. apply fmap_nil_inv in Hnil. done.
    + apply elem_of_cons in Hin as [Heq|Hin]; [discriminate|].
      by apply elem_of_nil in Hin.
Qed.

(** Every role stored in the mock database is granted something. *)
Lemma MOCK_USERS_roles_granted :
  map_Forall
    (fun _ d => default false
                  ((fun r => bool_decide (accessible_roles r ≠ [])) <$> d !! "role")
                = true)
    Auth.MOCK_USERS.
Proof. eapply (bool_decide_unpack _). vm_compute. reflexivity. Qed.

Lemma authenticated_role_granted form_data u db' :
  Auth.get_current_user Auth.MOCK_USERS form_data = (inr u, db') ->
  accessible_roles (Auth.role u) ≠ [].
Proof.
  intros Hauth.
  apply get_current_user_inr in Hauth as (d & Hd & _ & Hr & _ & _).
  pose proof (map_Forall_lookup_1 _ _ _ _ MOCK_USERS_roles_granted Hd) as Hg.
  simpl in Hg. rewrite Hr in Hg. simpl in Hg. by apply bool_decide_eq_true in Hg.
Qed.

(** C9. The role of a caller whom [get_current_user] accepts is a key of
    the mapping with a non-empty list, and [get_rag_response] for that
    role runs the search and the generator: the denial branch is not
    taken. *)
Theorem authenticated_never_denied form_data u db' :
  Auth.get_current_user Auth.MOCK_USERS form_data = (inr u, db') ->
  (∃ roles, ROLE_ACCESS_MAPPING !! Auth.role u = Some roles ∧ roles ≠ [])
  ∧ ∀ query w,
      let results := search (collection w) query 5 (role_filter (Auth.role u)) in
      let prompt_text := format_prompt (map fst results) query in
      fst (get_rag_response query (Auth.role u) w) = inr (llm prompt_text)
      ∧ new_calls (get_rag_response query (Auth.role u)) w
        = [EvSearch query 5 (role_filter (Auth.role u)) results;
           EvGenerate prompt_text].
Proof.
  intros Hauth. apply authenticated_role_granted in Hauth as Hg.
  split.
  - unfold accessible_roles in Hg.
    destruct (ROLE_ACCESS_MAPPING !! Auth.role u) as [roles|]; [|done].
    exists roles. by split.
  - intros query w results prompt_text. split.
    + by rewrite get_rag_response_granted.
    + by apply new_calls_granted.
Qed.

(** X28. The endpoint either raises the 401 without any call, or answers
    from a search and a generation: it never answers from the denial
    branch. *)
Lemma chat_with_bot_outcomes (request : Main.ChatRequest) w :
  let run := Main.chat_with_bot vector embed similarity show_documents llm request in
  run w = (inl Auth.unauthorized, w)
  ∨ ∃ user_role results,
      new_calls run w
      = [EvSearch (Main.query request) 5 (role_filter user_role) results;
         EvGenerate (format_prompt (map fst results) (Main.query request))]
      ∧ fst (run w) = inr (llm (format_prompt (map fst results) (Main.query request))).
Proof.
  intros run. subst run. unfold Main.chat_with_bot, new_calls, Rag.new_calls, bind, lift.
  destruct (Auth.get_current_user Auth.MOCK_USERS
              (Auth.mkUserLogin (Main.username request) (Main.password request)))
    as [[e|u] db'] eqn:Hauth; simpl.
  - left. apply get_current_user_inl in Hauth as [-> _]. reflexivity.
  - right. pose proof (authenticated_role_granted _ _ _ Hauth) as Hg.
    exists (Auth.role u). eexists.
    rewrite get_rag_response_granted by done. simpl.
    split; [apply drop_app_length|reflexivity].
Qed.

End RagFacts.

(** ** Runs of the query pipeline on the sample collection *)

Section RagRuns.

Import Rag Sample.

Lemma zero_leakage_witness :
  ∃ r, metadata (mkDocument "leave policy" {[ "role" := MStr "hr" ]}) !! "role"
       = Some (MStr r)
       ∧ r ∈ accessible_roles "hr".
Proof.
  apply (zero_leakage embed similarity show_documents llm "budget" "hr" world3
           _ (-6)%Z).
  eapply (bool_decide_unpack _). vm_compute. reflexivity.
Defined.

(** The finance chunk is the nearest neighbour of the query (similarity
    0, the best possible), and an [hr] caller does not get it, while a
    [finance] caller gets it first. *)
Example nearest_neighbour_withheld :
  rank (Rag.candidates Z embed similarity collection3 "budget"
          (WhereIn "role" [MStr "finance"; MStr "hr"; MStr "general"]))
  = [ (mkDocument "budget" {[ "role" := MStr "finance" ]}, 0%Z);
      (mkDocument "holidays" {[ "role" := MStr "general" ]}, (-2)%Z);
      (mkDocument "leave policy" {[ "role" := MStr "hr" ]}, (-6)%Z) ]
  ∧ retrieved (new_calls Z (Sample.get_rag_response "budget" "hr") world3)
    = [ (mkDocument "holidays" {[ "role" := MStr "general" ]}, (-2)%Z);
        (mkDocument "leave policy" {[ "role" := MStr "hr" ]}, (-6)%Z) ]
  ∧ retrieved (new_calls Z (Sample.get_rag_response "budget" "finance") world3)
    = [ (mkDocument "budget" {[ "role" := MStr "finance" ]}, 0%Z);
        (mkDocument "holidays" {[ "role" := MStr "general" ]}, (-2)%Z) ].
Proof. vm_compute. auto. Qed.

Lemma fail_closed_unknown_role_witness :
  Sample.get_rag_response "budget" "intern" world3 = (inr denial, world3)
  ∧ new_calls Z (Sample.get_rag_response "budget" "intern") world3 = [].
Proof.
  apply (fail_closed_unknown_role embed similarity show_documents llm).
  vm_compute. reflexivity.
Defined.

Lemma authenticated_never_denied_witness :
  (∃ roles, ROLE_ACCESS_MAPPING !! "hr" = Some roles ∧ roles ≠ [])
  ∧ ∀ query w,
      let results :=
        similarity_search_with_score Z embed similarity (collection Z w) query 5
          (role_filter "hr") in
      let prompt_text := format_prompt show_documents (map fst results) query in
      fst (Sample.get_rag_response query "hr" w) = inr (llm prompt_text)
      ∧ new_calls Z (Sample.get_rag_response query "hr") w
        = [EvSearch query 5 (role_filter "hr") results; EvGenerate prompt_text].
Proof.
  apply (authenticated_never_denied embed similarity show_documents llm
           (Auth.mkUserLogin "lisa_h" "password123")
           (Auth.mkUser "lisa_h" "hr") Auth.MOCK_USERS).
  vm_compute. reflexivity.
Defined.

End RagRuns.

(** ** Ingestion *)

Section LoaderFacts.

Import Loader.

Context {vector : Type} (embed : string -> vector).
Context (read_text : path -> string -> exn + string).
Context (markdown_split_text : string -> list Document).
Context (pdf_load csv_load : path -> string -> exn + list Document).
Context (split_text : string -> list string).
Context (PROJECT_ROOT : path).

Local Abbreviation World := (World vector).
Local Abbreviation load_file :=
  (load_file read_text markdown_split_text pdf_load csv_load).
Local Abbreviation tag_units :=
  (tag_units read_text markdown_split_text pdf_load csv_load).
Local Abbreviation entry_units :=
  (entry_units read_text markdown_split_text pdf_load csv_load).
Local Abbreviation documents_under :=
  (documents_under read_text markdown_split_text pdf_load csv_load).
Local Abbreviation process_file :=
  (process_file vector read_text markdown_split_text pdf_load csv_load).
Local Abbreviation get_documents_from_tree :=
  (get_documents_from_tree vector read_text markdown_split_text pdf_load csv_load).
Local Abbreviation get_documents_from_path :=
  (get_documents_from_path vector read_text markdown_split_text pdf_load csv_load).
Local Abbreviation split_documents := (split_documents split_text).
Local Abbreviation ingest_data :=
  (ingest_data vector embed read_text markdown_split_text pdf_load csv_load
     split_text PROJECT_ROOT).
Local Abbreviation printed := (printed vector).
Local Abbreviation data_dir := (data_dir vector).
Local Abbreviation chroma_db := (chroma_db vector).
Local Abbreviation stdout := (stdout vector).

Implicit Types (w : World) (docs : list Document).

(** The result that a loop body or loop leaves when its units are [r]
    and the accumulator was [acc]. *)
Local Abbreviation extended acc r :=
  (match r with inl e => inl e | inr units => inr (acc ++ units) end).

Lemma printed_nil w : printed w [] = w.
Proof. destruct w. unfold Loader.printed. simpl. by rewrite app_nil_r. Qed.

Lemma printed_printed w out out' :
  printed (printed w out) out' = printed w (out ++ out').
Proof. unfold Loader.printed. simpl. by rewrite app_assoc. Qed.

(** *** Pure lists of units *)

Lemma collect_inr_elem {B : Type} (units : B -> exn + list Document) l docs doc :
  collect units l = inr docs -> doc ∈ docs ->
  ∃ x us, x ∈ l ∧ units x = inr us ∧ doc ∈ us.
Proof.
  revert docs. induction l as [|x l IH]; simpl; intros docs.
  - intros [= <-] Hin. by apply elem_of_nil in Hin.
  - destruct (units x) as [e|us] eqn:Hx; [discriminate|].
    destruct (collect units l) as [e|rest]; [discriminate|].
    intros [= <-] Hin. apply elem_of_app in Hin as [Hin|Hin].
    + exists x, us. split; [left|]. by split.
    + destruct (IH rest eq_refl Hin) as (y & us' & Hy & Hu & Hd).
      exists y, us'. split; [by right|]. by split.
Qed.

Lemma collect_inl {B : Type} (units : B -> exn + list Document) l x e :
  x ∈ l -> units x = inl e -> ∃ e', collect units l = inl e'.
Proof.
  induction l as [|y l IH]; intros Hin Hx.
  - by apply elem_of_nil in Hin.
  - simpl. apply elem_of_cons in Hin as [->|Hin].
    + rewrite Hx. eauto.
    + destruct (units y) as [e0|us]; [eauto|].
      destruct (IH Hin Hx) as [e' ->]. eauto.
Qed.

(** *** The loops and their pure reading *)

Lemma process_file_run dirpath f acc w :
  ∃ out, process_file dirpath f acc w
         = (extended acc (tag_units dirpath f), printed w out).
Proof.
  unfold Loader.process_file, Loader.tag_units, bind, lift.
  destruct (load_file dirpath f) as [e|[[|d docs]|]]; simpl.
  - exists []. by rewrite printed_nil.
  - exists []. by rewrite printed_nil, app_nil_r.
  - eexists [_]. reflexivity.
  - exists []. by rewrite printed_nil, app_nil_r.
Qed.

Lemma for_each_run {B : Type} (body : B -> list Document -> M World (list Document))
    (units : B -> exn + list Document) :
  (∀ x acc w, ∃ out, body x acc w = (extended acc (units x), printed w out)) ->
  ∀ l acc w, ∃ out,
    for_each body l acc w = (extended acc (collect units l), printed w out).
Proof.
  intros Hbody. induction l as [|x l IH]; intros acc w; simpl.
  - exists []. unfold ret. by rewrite printed_nil, app_nil_r.
  - unfold bind. destruct (Hbody x acc w) as [out ->].
    destruct (units x) as [e|us]; [by exists out|].
    destruct (IH (acc ++ us) (printed w out)) as [out' ->].
    exists (out ++ out'). rewrite printed_printed.
    destruct (collect units l) as [e|rest]; [done|]. by rewrite app_assoc.
Qed.

Lemma get_documents_from_tree_run data_path t w :
  ∃ out, get_documents_from_tree data_path t w
         = (documents_under data_path (Some t), printed w out).
Proof.
  unfold Loader.get_documents_from_tree.
  destruct (for_each_run
              (fun entry all_docs =>
                 let '(dirpath, _, filenames) := entry in
                 for_each (process_file dirpath) filenames all_docs)
              entry_units) with (l := walk data_path t) (acc := @nil Document) (w := w)
    as [out Hrun].
  - intros [[dirpath dirnames] filenames] acc w0.
    apply (for_each_run (process_file dirpath) (tag_units dirpath)).
    apply process_file_run.
  - exists out. rewrite Hrun. simpl.
    by destruct (collect entry_units (walk data_path t)).
Qed.

(** [get_documents_from_path] returns the units that the pure reading
    gives, and only prints. *)
Lemma get_documents_from_path_run data_path w :
  ∃ out, get_documents_from_path data_path w
         = (documents_under data_path (data_dir w), printed w out).
Proof.
  unfold Loader.get_documents_from_path.
  destruct (Loader.data_dir vector w) as [t|] eqn:Ht.
  - apply get_documents_from_tree_run.
  - exists []. by rewrite printed_nil.
Qed.

(** *** Role tagging *)

Lemma path_name_join dirpath name : path_name (path_join dirpath name) = name.
Proof. unfold path_name, path_join. apply last_last. Qed.

Lemma role_of_set_metadata r unit :
  metadata (set_metadata "role" (MStr r) unit) !! "role" = Some (MStr r).
Proof. simpl. apply lookup_insert_eq. Qed.

(** C5 (amended). Every unit that [get_documents_from_path] returns comes
    from a file of some directory visited by the walk, and its ['role'] is
    the name of that directory, the one that directly contains the file;
    for a file directly in an immediate subdirectory of the root that is
    the subdirectory's name. *)
Theorem role_tagging data_path w docs w' doc :
  get_documents_from_path data_path w = (inr docs, w') ->
  doc ∈ docs ->
  ∃ t dirpath dirnames files f units unit,
    data_dir w = Some t
    ∧ (dirpath, dirnames, files) ∈ walk data_path t
    ∧ f ∈ files
    ∧ load_file dirpath f = inr (Some units)
    ∧ unit ∈ units
    ∧ doc = set_metadata "role" (MStr (path_name dirpath)) unit
    ∧ metadata doc !! "role" = Some (MStr (path_name dirpath))
    ∧ ∀ c, dirpath = path_join data_path c ->
           metadata doc !! "role" = Some (MStr c).
Proof.
  intros Hrun Hdoc.
  destruct (get_documents_from_path_run data_path w) as [out Heq].
  rewrite Heq in Hrun. injection Hrun as Hdocs _.
  unfold Loader.documents_under in Hdocs.
  destruct (Loader.data_dir vector w) as [t|] eqn:Ht.
  2:{ injection Hdocs as <-. by apply elem_of_nil in Hdoc. }
  destruct (collect_inr_elem _ _ _ _ Hdocs Hdoc)
    as ([[dirpath dirnames] files] & us & Hentry & Hus & Hin).
  unfold Loader.entry_units in Hus. simpl in Hus.
  destruct (collect_inr_elem _ _ _ _ Hus Hin) as (f & us' & Hf & Htag & Hin').
  unfold Loader.tag_units in Htag.
  destruct (load_file dirpath f) as [e|[units|]] eqn:Hload; try discriminate.
  2:{ injection Htag as <-. by apply elem_of_nil in Hin'. }
  injection Htag as <-.
  apply list_elem_of_fmap in Hin' as (unit & -> & Hunit).
  exists t, dirpath, dirnames, files, f, units, unit.
  repeat (split; [done|]). split; [apply role_of_set_metadata|].
  intros c ->. rewrite path_name_join. apply role_of_set_metadata.
Qed.

(** *** Failures of single files *)

(** C4 (amended). A file of the walk whose parse raises aborts the walk:
    [get_documents_from_path] raises and returns no units. *)
Theorem parse_failure_aborts data_path w t dirpath dirnames files f e :
  data_dir w = Some t ->
  (dirpath, dirnames, files) ∈ walk data_path t ->
  f ∈ files ->
  load_file dirpath f = inl e ->
  ∃ e', fst (get_documents_from_path data_path w) = inl e'.
Proof.
  intros Ht Hentry Hf Hload.
  destruct (get_documents_from_path_run data_path w) as [out ->]. simpl.
  rewrite Ht. simpl.
  assert (Htag : tag_units dirpath f = inl e).
  { unfold Loader.tag_units. by rewrite Hload. }
  destruct (collect_inl (tag_units dirpath) files f e Hf Htag) as [e' He'].
  apply (collect_inl entry_units _ (dirpath, dirnames, files) e' Hentry).
  exact He'.
Qed.

(** A file that no loader applies to is skipped without any effect. *)
Lemma unrecognized_file_skipped dirpath f acc w :
  endswith (file_name f) ".md" = false ->
  endswith (file_name f) ".pdf" = false ->
  endswith (file_name f) ".csv" = false ->
  process_file dirpath f acc w = (inr acc, w).
Proof.
  intros Hmd Hpdf Hcsv.
  unfold Loader.process_file, Loader.load_file, bind, lift.
  by rewrite Hmd, Hpdf, Hcsv.
Qed.

(** *** Chunking *)

Lemma split_documents_cons doc docs :
  split_documents (doc :: docs)
  = map (fun chunk => mkDocument chunk (metadata doc)) (split_text (page_content doc))
    ++ split_documents docs.
Proof. reflexivity. Qed.

(** C6. Every chunk of [split_documents] is a piece of the text of one
    of the parent documents and carries that parent's metadata, so its
    ['role'] and ['source'] in particular; a parent that is split into N
    pieces yields N chunks, all with the parent's metadata. *)
Theorem metadata_propagation (documents : list Document) :
  Forall (fun chunk =>
            ∃ parent, parent ∈ documents
              ∧ page_content chunk ∈ split_text (page_content parent)
              ∧ metadata chunk = metadata parent
              ∧ metadata chunk !! "role" = metadata parent !! "role"
              ∧ metadata chunk !! "source" = metadata parent !! "source")
         (split_documents documents)
  ∧ ∀ parent,
      length (split_documents [parent]) = length (split_text (page_content parent))
      ∧ Forall (fun chunk => metadata chunk = metadata parent)
               (split_documents [parent]).
Proof.
  split.
  - induction documents as [|doc docs IH].
    + constructor.
    + rewrite split_documents_cons. apply Forall_app. split.
      * apply Forall_fmap, Forall_forall. intros text Htext.
        exists doc. simpl. split; [left|]. auto.
      * eapply Forall_impl; [exact IH|].
        intros chunk (parent & Hin & Hrest). exists parent. split; [by right|done].
  - intros parent. rewrite split_documents_cons. simpl. rewrite app_nil_r.
    split; [apply length_map|].
    apply Forall_fmap, Forall_forall. by intros text _.
Qed.

(** *** The ingestion job *)

(** C3 (amended). When no documents are found under the data root,
    [ingest_data] returns after printing the abort message as its last
    line and writes no collection; the persist directory, removed
    before the corpus was read, does not exist afterwards. *)
Theorem empty_corpus_aborts w :
  fst (get_documents_from_path (DATA_PATH PROJECT_ROOT) w) = inr [] ->
  ∃ out, ingest_data w
         = (inr tt,
            Loader.mkWorld vector (data_dir w) None
              (stdout w ++ out ++ ["No documents found. Aborting."])).
Proof.
  intros Hnone.
  destruct (get_documents_from_path_run (DATA_PATH PROJECT_ROOT) w) as [out0 Hrun].
  rewrite Hrun in Hnone. simpl in Hnone. clear out0 Hrun.
  unfold Loader.ingest_data, bind at 1 2.
  cbn [print fst snd Loader.data_dir Loader.chroma_db Loader.stdout].
  destruct (Loader.chroma_db vector w) as [index|] eqn:Hdb; simpl.
  - unfold bind at 1. simpl. unfold bind at 1.
    match goal with
    | |- context [Loader.get_documents_from_path _ _ _ _ _ ?p ?w1] =>
        destruct (get_documents_from_path_run p w1) as [out ->]
    end.
    simpl. rewrite Hnone. simpl.
    eexists (_ :: _ :: out). unfold print, Loader.printed. simpl.
    rewrite <- !app_assoc. reflexivity.
  - unfold bind at 1. simpl. unfold bind at 1.
    match goal with
    | |- context [Loader.get_documents_from_path _ _ _ _ _ ?p ?w1] =>
        destruct (get_documents_from_path_run p w1) as [out ->]
    end.
    simpl. rewrite Hnone. simpl.
    eexists (_ :: out). unfold print, Loader.printed. simpl.
    rewrite <- !app_assoc. reflexivity.
Qed.

(** Steps of a computation, for running the job one statement at a time. *)
Lemma bind_inr {W A B : Type} (m : M W A) (k : A -> M W B) (x x' : W) a :
  m x = (inr a, x') -> bind m k x = k a x'.
Proof. unfold bind. by intros ->. Qed.

Lemma bind_inl {W A B : Type} (m : M W A) (k : A -> M W B) (x x' : W) e :
  m x = (inl e, x') -> bind m k x = (inl e, x').
Proof. unfold bind. by intros ->. Qed.

Lemma bind_bind {W A B C : Type} (m : M W A) (k : A -> M W B) (k' : B -> M W C)
    (x : W) :
  bind (bind m k) k' x = bind m (fun a => bind (k a) k') x.
Proof. unfold bind. by destruct (m x) as [[e|a] x']. Qed.

Lemma bind_print {A : Type} line (k : unit -> M World A) w :
  bind (Loader.print vector line) k w = k tt (printed w [line]).
Proof. reflexivity. Qed.

Lemma print_run line w : Loader.print vector line w = (inr tt, printed w [line]).
Proof. reflexivity. Qed.

(** The job up to the walk: the persist directory is gone when the corpus
    is read. *)
Lemma ingest_data_start w :
  ∃ out,
    ingest_data w
    = bind (get_documents_from_path (DATA_PATH PROJECT_ROOT))
        (fun documents =>
           if negb (truthy documents) then Loader.print vector "No documents found. Aborting."
           else
             let chunked_docs := split_documents documents in
             Loader.print vector
               ("Split documents into " +:+ pretty (length chunked_docs) +:+ " chunks.") >>
             Loader.print vector
               ("Initializing embedding model: " +:+ EMBEDDING_MODEL_NAME) >>
             Loader.print vector "Connecting to ChromaDB and uploading documents..." >>
             chroma_from_documents vector embed chunked_docs >>
             Loader.print vector rule >>
             Loader.print vector "âœ… Data ingestion complete!" >>
             Loader.print vector
               ("Total chunks processed: " +:+ pretty (length chunked_docs)) >>
             Loader.print vector
               ("Collection '" +:+ CHROMA_COLLECTION_NAME
                +:+ "' is ready in ChromaDB at '"
                +:+ path_str (CHROMA_PERSIST_DIRECTORY PROJECT_ROOT) +:+ "'") >>
             Loader.print vector rule)
        (Loader.mkWorld vector (data_dir w) None (stdout w ++ out)).
Proof.
  unfold Loader.ingest_data. rewrite bind_print.
  unfold bind at 1. cbn beta iota.
  destruct w as [dir [index|] lines]; unfold Loader.printed;
    cbn [Loader.data_dir Loader.chroma_db Loader.stdout].
  - rewrite bool_decide_true by eauto.
    rewrite bind_bind, bind_print. unfold bind at 1, rmtree_chroma, Loader.printed.
    cbn [Loader.data_dir Loader.chroma_db Loader.stdout].
    eexists. rewrite <- app_assoc. reflexivity.
  - rewrite bool_decide_false by (by intros [? ?]).
    unfold bind at 1, ret. eexists. reflexivity.
Qed.

(** With documents, the job publishes one record per chunk of
    [split_documents], each with the embedding of its text; with a parse
    failure it raises after the persist directory has been removed. *)
Lemma ingest_data_publishes w docs :
  documents_under (DATA_PATH PROJECT_ROOT) (data_dir w) = inr docs ->
  docs ≠ [] ->
  ∃ out, ingest_data w
         = (inr tt,
            Loader.mkWorld vector (data_dir w)
              (Some (map (fun d => (d, embed (page_content d))) (split_documents docs)))
              (stdout w ++ out)).
Proof.
  intros Hdocs Hne.
  assert (Ht : negb (truthy docs) = false) by (by destruct docs).
  destruct (ingest_data_start w) as [out0 ->].
  match goal with
  | |- context [bind (Loader.get_documents_from_path _ _ _ _ _ ?p) _ ?w1] =>
      destruct (get_documents_from_path_run p w1) as [out1 Hrun]
  end.
  cbn [Loader.data_dir] in Hrun. rewrite Hdocs in Hrun.
  rewrite (bind_inr _ _ _ _ _ Hrun), Ht. cbv zeta.
  rewrite !bind_print. unfold bind at 1, chroma_from_documents, Loader.printed.
  cbn [Loader.data_dir Loader.chroma_db Loader.stdout default].
  rewrite !bind_print, print_run. unfold Loader.printed.
  cbn [Loader.data_dir Loader.chroma_db Loader.stdout app].
  eexists. rewrite <- !app_assoc. reflexivity.
Qed.

Lemma ingest_data_raises w e :
  documents_under (DATA_PATH PROJECT_ROOT) (data_dir w) = inl e ->
  ∃ out, ingest_data w
         = (inl e, Loader.mkWorld vector (data_dir w) None (stdout w ++ out)).
Proof.
  intros Hdocs.
  destruct (ingest_data_start w) as [out0 ->].
  match goal with
  | |- context [bind (Loader.get_documents_from_path _ _ _ _ _ ?p) _ ?w1] =>
      destruct (get_documents_from_path_run p w1) as [out1 Hrun]
  end.
  cbn [Loader.data_dir] in Hrun. rewrite Hdocs in Hrun.
  rewrite (bind_inl _ _ _ _ _ Hrun). unfold Loader.printed.
  cbn [Loader.data_dir Loader.chroma_db Loader.stdout].
  eexists. rewrite <- app_assoc. reflexivity.
Qed.

End LoaderFacts.

(** ** Runs of the ingestion code on the sample trees *)

Section LoaderRuns.

Import Loader Sample.

(** C5, as claimed, fails: the unit of [data/finance/reports/q3.md] is
    tagged ["reports"], while the immediate subdirectory of the root above
    the file is ["finance"]. *)
Lemma role_tagging_counterexample :
  fst (Sample.get_documents_from_path data_path nested_world) = inr [q3_unit "reports"]
  ∧ walk data_path nested_tree
    = [ (data_path, ["finance"], []);
        (data_path ++ ["finance"], ["reports"], []);
        (data_path ++ ["finance"; "reports"], [],
         [mkFile "q3.md" "Q3 marketing spend was $500,000"]) ]
  ∧ subdirectory_of_root data_path (data_path ++ ["finance"; "reports"]) = Some "finance"
  ∧ metadata (q3_unit "reports") !! "role" ≠ Some (MStr "finance").
Proof. vm_compute. repeat split; try reflexivity. discriminate. Qed.

Lemma role_tagging_witness :
  ∃ t dirpath dirnames files f units unit,
    data_dir Z flat_world = Some t
    ∧ (dirpath, dirnames, files) ∈ walk data_path t
    ∧ f ∈ files
    ∧ load_file read_text markdown_split_text pdf_load csv_load dirpath f
      = inr (Some units)
    ∧ unit ∈ units
    ∧ handbook_unit = set_metadata "role" (MStr (path_name dirpath)) unit
    ∧ metadata handbook_unit !! "role" = Some (MStr (path_name dirpath))
    ∧ ∀ c, dirpath = path_join data_path c ->
           metadata handbook_unit !! "role" = Some (MStr c).
Proof.
  apply (role_tagging read_text markdown_split_text pdf_load csv_load
           data_path flat_world [q3_unit "finance"; handbook_unit]
           (snd (Sample.get_documents_from_path data_path flat_world))).
  - vm_compute. reflexivity.
  - eapply (bool_decide_unpack _). vm_compute. reflexivity.
Defined.

(** C4, as claimed, fails: [scan.pdf] does not parse, and the walk over
    [data/general] raises its exception; nothing is printed, nothing is
    returned, although [handbook.md] next to it parses. *)
Lemma per_file_isolation_counterexample :
  Sample.get_documents_from_path data_path broken_world
  = (inl (LoaderError "/srv/app/data/general/scan.pdf"), broken_world)
  ∧ load_file read_text markdown_split_text pdf_load csv_load
      (data_path ++ ["general"]) (mkFile "handbook.md" "Leave policy")
    = inr (Some [mkDocument "Leave policy" {[ "source" := MStr "handbook.md" ]}]).
Proof. vm_compute. split; reflexivity. Qed.

Lemma parse_failure_aborts_witness :
  ∃ e', fst (Sample.get_documents_from_path data_path broken_world) = inl e'.
Proof.
  apply (parse_failure_aborts read_text markdown_split_text pdf_load csv_load
           data_path broken_world broken_tree
           (data_path ++ ["general"]) []
           [mkFile "scan.pdf" "not a pdf"; mkFile "handbook.md" "Leave policy"]
           (mkFile "scan.pdf" "not a pdf")
           (LoaderError "/srv/app/data/general/scan.pdf")).
  - reflexivity.
  - eapply (bool_decide_unpack _). vm_compute. reflexivity.
  - eapply (bool_decide_unpack _). vm_compute. reflexivity.
  - vm_compute. reflexivity.
Defined.

(** C3, as claimed, fails: with an empty data directory the job aborts,
    and the index that was there before is gone. *)
Lemma empty_corpus_counterexample :
  chroma_db Z empty_corpus_world = Some old_index
  ∧ Sample.ingest_data empty_corpus_world
    = (inr tt,
       Loader.mkWorld Z (Some (Node [] [])) None
         [ "Starting data ingestion process...";
           "Removing existing ChromaDB directory: /srv/app/chroma_db";
           "No documents found. Aborting." ])
  ∧ chroma_db Z (snd (Sample.ingest_data empty_corpus_world))
    ≠ chroma_db Z empty_corpus_world.
Proof. vm_compute. repeat split; try reflexivity. discriminate. Qed.

Lemma empty_corpus_aborts_witness :
  ∃ out, Sample.ingest_data empty_corpus_world
         = (inr tt,
            Loader.mkWorld Z (data_dir Z empty_corpus_world) None
              (stdout Z empty_corpus_world ++ out ++ ["No documents found. Aborting."])).
Proof.
  apply (empty_corpus_aborts embed read_text markdown_split_text pdf_load csv_load
           split_text PROJECT_ROOT empty_corpus_world).
  vm_compute. reflexivity.
Defined.

(** A document of thirty-one characters is cut into five windows, and each
    of them carries the role and the source of the document. *)
Example chunks_keep_metadata :
  split_documents Sample.split_text [q3_unit "finance"]
  = (fun text => mkDocument text (metadata (q3_unit "finance")))
      <$> ["Q3 marke"; "keting s"; " spend w"; " was $50"; "500,000"].
Proof. vm_compute. reflexivity. Qed.

End LoaderRuns.

(** * Further properties *)

(** ** Authentication against any user database *)

Section AuthAnyDatabase.

Import Auth.

Implicit Types (db : gmap string (gmap string string)) (d : gmap string string).

Lemma falsy_entry_with_password d pw :
  d !! "password" = Some pw -> falsy_entry (Some d) = false.
Proof.
  intros Hpw. simpl. apply bool_decide_eq_false. intros ->.
  by rewrite lookup_empty in Hpw.
Qed.

(** X1. Whatever the database, [get_current_user] returns a user exactly
    when the database has an entry for the submitted username whose
    password is the submitted one and which stores a role; the user then
    has the submitted name and the stored role.  The database is never
    modified. *)
Theorem get_current_user_any_db db form_data :
  snd (get_current_user db form_data) = db
  ∧ ∀ u, fst (get_current_user db form_data) = inr u
         ↔ ∃ d, db !! login_username form_data = Some d
                ∧ d !! "password" = Some (login_password form_data)
                ∧ d !! "role" = Some (role u)
                ∧ username u = login_username form_data.
Proof.
  split.
  - unfold get_current_user.
    destruct (falsy_entry _ || _); [done|].
    by destruct (_ ≫= _).
  - intros u. split.
    + intros Hres.
      destruct (get_current_user db form_data) as [res db'] eqn:Hrun.
      simpl in Hres. subst res.
      apply get_current_user_inr in Hrun as (d & Hd & Hpw & Hr & Hu & _).
      exists d. auto.
    + intros (d & Hd & Hpw & Hr & Hu). unfold get_current_user.
      rewrite Hd. rewrite (falsy_entry_with_password _ _ Hpw). simpl.
      rewrite Hpw, Hr. rewrite bool_decide_true by done. simpl.
      destruct u as [n r]. simpl in *. by subst.
Qed.

(** X2. An entry that has the submitted password but no ['role'] field
    makes [get_current_user] raise [KeyError], not the 401. *)
Theorem get_current_user_missing_role db form_data d :
  db !! login_username form_data = Some d ->
  d !! "password" = Some (login_password form_data) ->
  d !! "role" = None ->
  get_current_user db form_data = (inl (KeyError "role"), db).
Proof.
  intros Hd Hpw Hr. unfold get_current_user.
  rewrite Hd. rewrite (falsy_entry_with_password _ _ Hpw). simpl.
  rewrite Hpw, Hr. by rewrite bool_decide_true.
Qed.

Lemma get_current_user_missing_role_witness :
  get_current_user {[ "guest" := {[ "password" := "pw" ]} ]} (mkUserLogin "guest" "pw")
  = (inl (KeyError "role"), {[ "guest" := {[ "password" := "pw" ]} ]}).
Proof.
  apply (get_current_user_missing_role _ (mkUserLogin "guest" "pw") {[ "password" := "pw" ]});
    vm_compute; reflexivity.
Defined.

(** X3. An entry that is an empty dictionary, or that has no ['password']
    field, is rejected with the 401 like an unknown user, whatever
    password is submitted. *)
Theorem get_current_user_no_password db form_data d :
  db !! login_username form_data = Some d ->
  d !! "password" = None ->
  get_current_user db form_data = (inl unauthorized, db).
Proof.
  intros Hd Hpw. unfold get_current_user. rewrite Hd. simpl. rewrite Hpw.
  rewrite (bool_decide_false (None = Some _)) by done. simpl.
  by rewrite orb_true_r.
Qed.

Lemma get_current_user_no_password_witness :
  get_current_user {[ "ghost" := ∅ ]} (mkUserLogin "ghost" "")
  = (inl unauthorized, {[ "ghost" := ∅ ]}).
Proof.
  apply (get_current_user_no_password _ (mkUserLogin "ghost" "") ∅);
    vm_compute; reflexivity.
Defined.

End AuthAnyDatabase.

(** ** More on the query pipeline *)

Section RagMore.

Import Rag.

Context {vector : Type}.
Context (embed : string -> vector) (similarity : vector -> vector -> Z).
Context (show_documents : list Document -> string) (llm : string -> string).

Local Abbreviation get_rag_response :=
  (get_rag_response vector embed similarity show_documents llm).
Local Abbreviation chat_with_bot :=
  (Main.chat_with_bot vector embed similarity show_documents llm).
Local Abbreviation search := (similarity_search_with_score vector embed similarity).
Local Abbreviation candidates := (candidates vector embed similarity).
Local Abbreviation format_prompt := (format_prompt show_documents).
Local Abbreviation World := (World vector).
Local Abbreviation new_calls := (new_calls vector).
Local Abbreviation collection := (collection vector).
Local Abbreviation calls := (calls vector).
Local Abbreviation permitted user_role :=
  (fun r : Document * vector => matches (role_filter user_role) (fst r)).

Implicit Types (w : World) (query user_role : string).

Lemma truthy_true {B : Type} (l : list B) : truthy l = true ↔ l ≠ [].
Proof. by destruct l. Qed.

Lemma length_rank {B : Type} (l : list (B * Z)) : length (rank l) = length l.
Proof. apply Permutation_length, rank_perm. Qed.

Lemma length_candidates coll query filter :
  length (candidates coll query filter)
  = length (List.filter (fun r => matches filter (fst r)) coll).
Proof. unfold Rag.candidates. apply length_map. Qed.

(** X4. The number of chunks that [get_rag_response] retrieves is the
    smaller of five and the number of records of the collection whose
    ['role'] the caller may read: the records that the filter excludes take
    none of the five places. *)
Theorem retrieved_count query user_role w :
  length (retrieved (new_calls (get_rag_response query user_role) w))
  = if truthy (accessible_roles user_role)
    then min 5 (length (List.filter (permitted user_role) (collection w)))
    else 0.
Proof.
  rewrite (retrieved_get_rag_response embed similarity show_documents llm).
  destruct (truthy (accessible_roles user_role)); [|done].
  unfold similarity_search_with_score.
  by rewrite length_take, length_rank, length_candidates.
Qed.

(** X5. When at most five records of the collection are readable by the
    caller, every one of them is retrieved, with its similarity to the
    query. *)
Theorem few_permitted_all_retrieved query user_role w doc v :
  accessible_roles user_role ≠ [] ->
  length (List.filter (permitted user_role) (collection w)) <= 5 ->
  (doc, v) ∈ collection w ->
  matches (role_filter user_role) doc = true ->
  (doc, similarity (embed query) v)
    ∈ retrieved (new_calls (get_rag_response query user_role) w).
Proof.
  intros Hne Hfew Hin Hm.
  rewrite (retrieved_get_rag_response embed similarity show_documents llm).
  apply truthy_true in Hne. rewrite Hne.
  unfold similarity_search_with_score.
  rewrite take_ge by (by rewrite length_rank, length_candidates).
  apply elem_of_rank. unfold Rag.candidates.
  apply (list_elem_of_fmap_2' _ _ (doc, v)); [|done].
  apply list_elem_of_In, filter_In. split; [by apply list_elem_of_In|done].
Qed.

Lemma matches_role_filter_false user_role doc :
  (∀ r, metadata doc !! "role" = Some (MStr r) -> r ∉ accessible_roles user_role) ->
  matches (role_filter user_role) doc = false.
Proof.
  intros Hno. unfold role_filter, matches.
  destruct (metadata doc !! "role") as [v|] eqn:Hv; [|done].
  apply bool_decide_eq_false. intros Hin.
  apply list_elem_of_fmap in Hin as (r & -> & Hr). by eapply Hno.
Qed.

Lemma filter_none {B : Type} (f : B -> bool) (l : list B) :
  (∀ x, x ∈ l -> f x = false) -> List.filter f l = [].
Proof.
  induction l as [|x l IH]; intros Hall; [done|]. simpl.
  rewrite (Hall x) by left. apply IH. intros y Hy. apply Hall. by right.
Qed.

(** X6. When no record of the collection (an empty collection among
    others) carries a role that the caller may read, a caller with a known
    role is not refused: the search returns nothing and the language model
    is called with an empty context. *)
Theorem nothing_permitted_empty_context query user_role w :
  accessible_roles user_role ≠ [] ->
  (∀ doc v r, (doc, v) ∈ collection w -> metadata doc !! "role" = Some (MStr r) ->
              r ∉ accessible_roles user_role) ->
  get_rag_response query user_role w
  = (inr (llm (format_prompt [] query)),
     mkWorld vector (collection w)
       (calls w ++ [EvSearch query 5 (role_filter user_role) [];
                    EvGenerate (format_prompt [] query)])).
Proof.
  intros Hne Hnone.
  rewrite (get_rag_response_granted embed similarity show_documents llm) by done.
  assert (Hs : search (collection w) query 5 (role_filter user_role) = []).
  { unfold similarity_search_with_score, Rag.candidates.
    rewrite filter_none; [done|].
    intros [doc v] Hin. simpl. apply matches_role_filter_false.
    intros r Hr. by eapply Hnone. }
  by rewrite Hs.
Qed.

(** X7. The policy is layered: what ["employee"] may read, every caller
    role of the mapping may read, and what any caller role may read,
    ["c_level"] may read. *)
Theorem policy_layers caller r :
  (r ∈ accessible_roles "employee" -> is_Some (ROLE_ACCESS_MAPPING !! caller) ->
   r ∈ accessible_roles caller)
  ∧ (r ∈ accessible_roles caller -> r ∈ accessible_roles "c_level").
Proof.
  assert (Hall : map_Forall (fun _ roles =>
                   accessible_roles "employee" ⊆ roles
                   ∧ roles ⊆ accessible_roles "c_level") ROLE_ACCESS_MAPPING).
  { eapply (bool_decide_unpack _). vm_compute. reflexivity. }
  unfold accessible_roles at 2 3.
  destruct (ROLE_ACCESS_MAPPING !! caller) as [roles|] eqn:Hk; simpl.
  - destruct (map_Forall_lookup_1 _ _ _ _ Hall Hk) as [Hlow Hhigh].
    split; [intros Hr _; by apply Hlow|apply Hhigh].
  - split; [by intros _ [? ?]|]. intros Hr. by apply elem_of_nil in Hr.
Qed.

Lemma policy_layers_witness :
  "general" ∈ accessible_roles "hr" ∧ "hr" ∈ accessible_roles "c_level".
Proof.
  split.
  - apply (proj1 (policy_layers "hr" "general")).
    + eapply (bool_decide_unpack _). vm_compute. reflexivity.
    + eapply (bool_decide_unpack _). vm_compute. reflexivity.
  - apply (proj2 (policy_layers "hr" "hr")).
    eapply (bool_decide_unpack _). vm_compute. reflexivity.
Defined.

(** X8. Whatever [chat_with_bot] retrieves for a request was retrieved for
    the role that [MOCK_USERS] stores for the username of the request, with
    the submitted password matching: every retrieved chunk carries a role
    from the list of that stored role. *)
Theorem chat_with_bot_zero_leakage (request : Main.ChatRequest) w doc score :
  (doc, score) ∈ retrieved (new_calls (chat_with_bot request) w) ->
  ∃ d stored r,
    Auth.MOCK_USERS !! Main.username request = Some d
    ∧ d !! "password" = Some (Main.password request)
    ∧ d !! "role" = Some stored
    ∧ metadata doc !! "role" = Some (MStr r)
    ∧ r ∈ accessible_roles stored.
Proof.
  unfold Main.chat_with_bot, Rag.new_calls, bind, lift.
  destruct (Auth.get_current_user Auth.MOCK_USERS
              (Auth.mkUserLogin (Main.username request) (Main.password request)))
    as [[e|u] db'] eqn:Hauth; simpl.
  - rewrite drop_all. intros Hin. by apply elem_of_nil in Hin.
  - apply get_current_user_inr in Hauth as (d & Hd & Hpw & Hr & _ & _).
    simpl in Hd, Hpw.
    fold (new_calls (get_rag_response (Main.query request) (Auth.role u)) w).
    rewrite (retrieved_get_rag_response embed similarity show_documents llm).
    destruct (truthy (accessible_roles (Auth.role u))).
    + intros Hin. apply (search_matches embed similarity llm) in Hin.
      apply matches_role_filter in Hin as (r & Hrole & Hacc).
      exists d, (Auth.role u), r. repeat (split; [done|]). done.
    + intros Hin. by apply elem_of_nil in Hin.
Qed.

End RagMore.

(** ** Loading the module and the retriever test *)

Section StartupFacts.

Import Rag Startup.

Context {vector : Type}.
Context (embed : string -> vector) (similarity : vector -> vector -> Z).
Context (show_documents : list Document -> string) (llm : string -> string).

(** X9. Loading the module ends the process exactly when the API key is
    missing or empty, or when the collection cannot be opened. *)
Theorem load_module_exits (environ : gmap string string)
    (opened : exn + list (Document * vector)) :
  (∃ out, load_module vector environ opened = Exited vector out)
  ↔ (environ !! "GOOGLE_API_KEY" = None
     ∨ environ !! "GOOGLE_API_KEY" = Some ""
     ∨ ∃ e, opened = inl e).
Proof.
  unfold load_module.
  destruct (environ !! "GOOGLE_API_KEY") as [key|] eqn:Hkey.
  - rewrite (bool_decide_false (Some key = None)) by done. simpl.
    destruct (decide (key = "")) as [->|Hne].
    + rewrite bool_decide_true by done. split; [auto|eauto].
    + rewrite bool_decide_false by congruence.
      destruct opened as [e|coll].
      * split; [eauto|eauto].
      * split.
        -- intros [out Hout]. discriminate.
        -- intros [Hn|[He|[e He]]]; [discriminate|congruence|discriminate].
  - rewrite bool_decide_true by done. simpl. split; [auto|eauto].
Qed.

(** X10. An empty collection does not stop the module from loading: a
    warning is printed, and a later question of a caller with a known role
    is put to the language model with an empty context. *)
Theorem empty_index_still_serves (environ : gmap string string) key query user_role :
  environ !! "GOOGLE_API_KEY" = Some key -> key ≠ "" ->
  accessible_roles user_role ≠ [] ->
  ∃ w,
    load_module vector environ (inr [])
    = Serving vector w
        ["Warning: ChromaDB collection is empty. Did the data loader run correctly?"]
    ∧ get_rag_response vector embed similarity show_documents llm query user_role w
      = (inr (llm (format_prompt show_documents [] query)),
         mkWorld vector []
           [EvSearch query 5 (role_filter user_role) [];
            EvGenerate (format_prompt show_documents [] query)]).
Proof.
  intros Hkey Hne Hacc. exists (mkWorld vector [] []). split.
  - unfold load_module. rewrite Hkey.
    rewrite (bool_decide_false (Some key = None)) by done.
    by rewrite bool_decide_false by congruence.
  - by rewrite (get_rag_response_granted embed similarity show_documents llm).
Qed.

End StartupFacts.

Lemma empty_index_still_serves_witness :
  ∃ w : Rag.World Z,
    Startup.load_module Z {[ "GOOGLE_API_KEY" := "k" ]} (inr [])
    = Startup.Serving Z w
        ["Warning: ChromaDB collection is empty. Did the data loader run correctly?"]
    ∧ Sample.get_rag_response "budget" "hr" w
      = (inr (Sample.llm (Rag.format_prompt Sample.show_documents [] "budget")),
         Rag.mkWorld Z []
           [Rag.EvSearch "budget" 5 (Rag.role_filter "hr") [];
            Rag.EvGenerate (Rag.format_prompt Sample.show_documents [] "budget")]).
Proof.
  apply (empty_index_still_serves Sample.embed Sample.similarity Sample.show_documents
           Sample.llm {[ "GOOGLE_API_KEY" := "k" ]} "k" "budget" "hr").
  - vm_compute. reflexivity.
  - discriminate.
  - vm_compute. discriminate.
Defined.

Section DebugFacts.

Import Rag Debug.

Context {vector : Type}.
Context (embed : string -> vector) (similarity : vector -> vector -> Z).
Context (show_documents : list Document -> string) (llm : string -> string).

Local Abbreviation Console := (Console vector).
Local Abbreviation mkConsole := (mkConsole vector).
Local Abbreviation test_retriever := (test_retriever vector embed similarity).
Local Abbreviation print_document := (print_document vector).
Local Abbreviation search := (similarity_search_with_score vector embed similarity).
Local Abbreviation rag := (rag vector).
Local Abbreviation out := (out vector).

Implicit Types (c : Console) (query user_role : string).

Lemma for_each_print_document docs i c :
  for_each print_document docs i c
  = (inr (i + length docs),
     mkConsole (rag c) (out c ++ concat (imap (fun j => document_lines (i + j)) docs))).
Proof.
  revert i c. induction docs as [|doc docs IH]; intros i c.
  - simpl. unfold ret. destruct c. simpl. by rewrite app_nil_r, Nat.add_0_r.
  - cbn [for_each]. unfold bind at 1.
    assert (Hdoc : print_document doc i c
                   = (inr (S i), mkConsole (rag c) (out c ++ document_lines i doc))).
    { unfold Debug.print_document, bind, Debug.print, ret, document_lines. simpl.
      by rewrite <- !app_assoc. }
    rewrite Hdoc, IH. cbn [length imap concat rag out Debug.rag Debug.out].
    rewrite Nat.add_0_r, <- app_assoc. f_equal; [f_equal; lia|].
    assert (Heq : imap (fun j => document_lines (S i + j)) docs
                  = imap ((fun j => document_lines (i + j)) ∘ S) docs).
    { apply imap_ext. intros j x _. simpl. f_equal. lia. }
    by rewrite Heq.
Qed.

Lemma test_retriever_denied_run query user_role c :
  accessible_roles user_role = [] ->
  test_retriever query user_role c
  = (inr tt,
     mkConsole (rag c)
       (out c ++ [ "
--- Testing Retriever ---";
                   "Role: '" +:+ user_role +:+ "'";
                   "Query: '" +:+ query +:+ "'";
                   "Result: No accessible roles found for this user." ])).
Proof.
  intros Hnil. unfold Debug.test_retriever. rewrite Hnil.
  unfold bind, Debug.print. simpl. by rewrite <- !app_assoc.
Qed.

(** X11. For a role without access [test_retriever] prints its three
    header lines and the no-access line, leaves the pipeline untouched (no
    search goes out) and returns before the closing line. *)
Theorem test_retriever_no_access query user_role c :
  accessible_roles user_role = [] ->
  test_retriever query user_role c
  = (inr tt,
     mkConsole (rag c)
       (out c ++ [ "
--- Testing Retriever ---";
                   "Role: '" +:+ user_role +:+ "'";
                   "Query: '" +:+ query +:+ "'";
                   "Result: No accessible roles found for this user." ])).
Proof. exact (test_retriever_denied_run query user_role c). Qed.

Lemma test_retriever_granted_run query user_role c :
  accessible_roles user_role ≠ [] ->
  let results := search (collection vector (rag c)) query 5 (role_filter user_role) in
  let docs := map fst results in
  test_retriever query user_role c
  = (inr tt,
     mkConsole
       (mkWorld vector (collection vector (rag c))
          (calls vector (rag c) ++ [EvSearch query 5 (role_filter user_role) results]))
       (out c
        ++ [ "
--- Testing Retriever ---";
             "Role: '" +:+ user_role +:+ "'";
             "Query: '" +:+ query +:+ "'";
             "
Found " +:+ pretty (length docs) +:+ " documents:" ]
        ++ (if truthy docs
            then concat (imap document_lines docs)
            else [ "--> The retriever found NO relevant documents for this query and role.";
                   "--> This is why the chatbot says 'I don't know'.";
                   "--> Check if the data was loaded correctly with the right 'role' metadata." ])
        ++ [ "--- End of Retriever Test ---
" ])).
Proof.
  intros Hne results docs. unfold Debug.test_retriever.
  destruct (truthy (accessible_roles user_role)) eqn:Ht.
  2:{ destruct (accessible_roles user_role); [done|discriminate]. }
  cbn [negb]. fold (role_filter user_role).
  unfold bind at 1 2 3. cbn [Debug.print fst snd].
  unfold bind at 1, try_except, bind at 1, in_rag, retriever_invoke.
  cbn [fst snd Debug.rag Debug.out]. fold results. fold docs.
  destruct docs as [|doc rest] eqn:Hdocs.
  - cbn [truthy negb length]. unfold bind, Debug.print. cbn.
    rewrite <- !app_assoc. reflexivity.
  - cbn [truthy negb]. unfold bind at 1. cbn [Debug.print fst snd Debug.rag Debug.out].
    unfold bind at 1. rewrite for_each_print_document.
    unfold ret, Debug.print. cbn [Debug.rag Debug.out Nat.add].
    rewrite <- !app_assoc. reflexivity.
Qed.

(** X13. [test_retriever] sends the pipeline exactly the search that
    [get_rag_response] sends for the same query and role, and never the
    call of the language model. *)
Theorem test_retriever_same_search query user_role c :
  drop (length (calls vector (rag c)))
       (calls vector (rag (snd (test_retriever query user_role c))))
  = take 1 (new_calls vector
              (get_rag_response vector embed similarity show_documents llm
                 query user_role) (rag c)).
Proof.
  destruct (decide (accessible_roles user_role = [])) as [Hnil|Hne].
  - rewrite test_retriever_denied_run by done.
    rewrite (new_calls_denied embed similarity show_documents llm) by done.
    simpl. apply drop_all.
  - rewrite test_retriever_granted_run by done.
    rewrite (new_calls_granted embed similarity show_documents llm) by done.
    simpl. apply drop_app_length.
Qed.

Lemma code_points_take n s :
  code_points (take_code_points n s) = min n (code_points s).
Proof.
  revert n. induction s as [|b s IH]; intros n; cbn [take_code_points code_points].
  - by rewrite Nat.min_0_r.
  - destruct (continuation_byte b) eqn:Hb.
    + cbn [code_points]. rewrite Hb. apply IH.
    + destruct n as [|n]; [done|]. cbn [code_points]. rewrite Hb, IH. simpl. done.
Qed.

Lemma prefix_take_code_points n s : String.prefix (take_code_points n s) s = true.
Proof.
  revert n. induction s as [|b s IH]; intros n; cbn [take_code_points]; [done|].
  destruct (continuation_byte b).
  - cbn [String.prefix]. destruct (Ascii.ascii_dec b b); [apply IH|done].
  - destruct n as [|n]; [done|].
    cbn [String.prefix]. destruct (Ascii.ascii_dec b b); [apply IH|done].
Qed.

Lemma take_code_points_all n s : code_points s <= n -> take_code_points n s = s.
Proof.
  revert n. induction s as [|b s IH]; intros n; cbn [take_code_points code_points];
    [done|].
  destruct (continuation_byte b); intros Hn.
  - by rewrite IH.
  - destruct n as [|n]; [lia|]. rewrite IH; [done|lia].
Qed.

(** Two accented letters are two code points and four bytes. *)
Example take_code_points_accents :
  take_code_points 2 "éèa" = "éè"
  ∧ String.length (take_code_points 2 "éèa") = 4
  ∧ code_points "éèa" = 3.
Proof. vm_compute. done. Qed.

(** X14. The content that [test_retriever] prints for a document is a
    prefix of its text: the first 250 characters (code points), and the
    whole text if it has no more than that. *)
Theorem content_preview_bound (doc : Document) :
  code_points (content_preview doc) = min 250 (code_points (page_content doc))
  ∧ String.prefix (content_preview doc) (page_content doc) = true
  ∧ (code_points (page_content doc) <= 250 -> content_preview doc = page_content doc).
Proof.
  unfold content_preview. split; [apply code_points_take|].
  split; [apply prefix_take_code_points|apply take_code_points_all].
Qed.

End DebugFacts.

Lemma test_retriever_no_access_witness :
  Debug.test_retriever Z Sample.embed Sample.similarity "budget" "intern"
    (Debug.mkConsole Z Sample.world3 [])
  = (inr tt,
     Debug.mkConsole Z Sample.world3
       ([] ++ [ "
--- Testing Retriever ---";
               "Role: '" +:+ "intern" +:+ "'";
               "Query: '" +:+ "budget" +:+ "'";
               "Result: No accessible roles found for this user." ])).
Proof.
  apply (test_retriever_no_access Sample.embed Sample.similarity "budget" "intern"
           (Debug.mkConsole Z Sample.world3 [])).
  vm_compute. reflexivity.
Defined.

(** ** More on ingestion *)

Section LoaderMore.

Import Loader.

Context {vector : Type} (embed : string -> vector).
Context (read_text : path -> string -> exn + string).
Context (markdown_split_text : string -> list Document).
Context (pdf_load csv_load : path -> string -> exn + list Document).
Context (split_text : string -> list string).
Context (PROJECT_ROOT : path).

Local Abbreviation World := (World vector).
Local Abbreviation load_file :=
  (load_file read_text markdown_split_text pdf_load csv_load).
Local Abbreviation tag_units :=
  (tag_units read_text markdown_split_text pdf_load csv_load).
Local Abbreviation entry_units :=
  (entry_units read_text markdown_split_text pdf_load csv_load).
Local Abbreviation documents_under :=
  (documents_under read_text markdown_split_text pdf_load csv_load).
Local Abbreviation process_file :=
  (process_file vector read_text markdown_split_text pdf_load csv_load).
Local Abbreviation get_documents_from_path :=
  (get_documents_from_path vector read_text markdown_split_text pdf_load csv_load).
Local Abbreviation split_documents := (split_documents split_text).
Local Abbreviation ingest_data :=
  (ingest_data vector embed read_text markdown_split_text pdf_load csv_load
     split_text PROJECT_ROOT).
Local Abbreviation data_dir := (data_dir vector).
Local Abbreviation chroma_db := (chroma_db vector).
Local Abbreviation stdout := (stdout vector).
Local Abbreviation mkWorld := (mkWorld vector).
Local Abbreviation DATA_PATH := (DATA_PATH PROJECT_ROOT).
Local Abbreviation published docs :=
  (map (fun d : Document => (d, embed (page_content d))) (split_documents docs)).

Implicit Types (w : World) (docs : list Document).

Lemma for_each_app {W A B : Type} (body : B -> A -> M W A) l1 l2 acc (w : W) :
  for_each body (l1 ++ l2) acc w
  = match for_each body l1 acc w with
    | (inr acc', w') => for_each body l2 acc' w'
    | (inl e, w') => (inl e, w')
    end.
Proof.
  revert acc w. induction l1 as [|x l1 IH]; intros acc w; [done|].
  simpl. unfold bind. destruct (body x acc w) as [[e|acc'] w']; [done|]. apply IH.
Qed.

(** X15. A file whose name ends in none of [.md], [.pdf] and [.csv] has no
    effect wherever it stands in the listing of a directory: the units, the
    printed lines and a raised exception are those of the listing without
    it. *)
Theorem unrecognized_file_no_effect dirpath before f after acc w :
  endswith (file_name f) ".md" = false ->
  endswith (file_name f) ".pdf" = false ->
  endswith (file_name f) ".csv" = false ->
  for_each (process_file dirpath) (before ++ f :: after) acc w
  = for_each (process_file dirpath) (before ++ after) acc w.
Proof.
  intros Hmd Hpdf Hcsv. rewrite !for_each_app.
  destruct (for_each (process_file dirpath) before acc w) as [[e|acc'] w']; [done|].
  cbn [for_each]. unfold bind at 1.
  by rewrite (unrecognized_file_skipped read_text markdown_split_text pdf_load csv_load).
Qed.

(** The units of a successful walk, traced back to their files. *)
Lemma documents_under_elem data_path t docs doc :
  documents_under data_path (Some t) = inr docs ->
  doc ∈ docs ->
  ∃ dirpath dirnames files f units unit,
    (dirpath, dirnames, files) ∈ walk data_path t
    ∧ f ∈ files
    ∧ load_file dirpath f = inr (Some units)
    ∧ unit ∈ units
    ∧ doc = set_metadata "role" (MStr (path_name dirpath)) unit.
Proof.
  intros Hdocs Hdoc. unfold Loader.documents_under in Hdocs.
  destruct (collect_inr_elem _ _ _ _ Hdocs Hdoc)
    as ([[dirpath dirnames] files] & us & Hentry & Hus & Hin).
  unfold Loader.entry_units in Hus. simpl in Hus.
  destruct (collect_inr_elem _ _ _ _ Hus Hin) as (f & us' & Hf & Htag & Hin').
  unfold Loader.tag_units in Htag.
  destruct (load_file dirpath f) as [e|[units|]] eqn:Hload; try discriminate.
  2:{ injection Htag as <-. by apply elem_of_nil in Hin'. }
  injection Htag as <-.
  apply list_elem_of_fmap in Hin' as (unit & -> & Hunit).
  exists dirpath, dirnames, files, f, units, unit. done.
Qed.

Lemma ingest_data_empty w :
  documents_under DATA_PATH (data_dir w) = inr [] ->
  ∃ out, ingest_data w = (inr tt, mkWorld (data_dir w) None (stdout w ++ out)).
Proof.
  intros Hnone. unfold Loader.ingest_data, bind at 1 2.
  cbn [print fst snd Loader.data_dir Loader.chroma_db Loader.stdout].
  destruct (Loader.chroma_db vector w) as [index|] eqn:Hdb; simpl.
  - unfold bind at 1. simpl. unfold bind at 1.
    match goal with
    | |- context [Loader.get_documents_from_path _ _ _ _ _ ?p ?w1] =>
        destruct (get_documents_from_path_run read_text markdown_split_text
                    pdf_load csv_load p w1) as [out ->]
    end.
    simpl. rewrite Hnone. simpl.
    eexists. unfold print, Loader.printed. simpl.
    rewrite <- !app_assoc. reflexivity.
  - unfold bind at 1. simpl. unfold bind at 1.
    match goal with
    | |- context [Loader.get_documents_from_path _ _ _ _ _ ?p ?w1] =>
        destruct (get_documents_from_path_run read_text markdown_split_text
                    pdf_load csv_load p w1) as [out ->]
    end.
    simpl. rewrite Hnone. simpl.
    eexists. unfold print, Loader.printed. simpl.
    rewrite <- !app_assoc. reflexivity.
Qed.

(** The three ways in which the job ends. *)
Lemma ingest_data_cases w :
  ∃ out,
    ingest_data w
    = match documents_under DATA_PATH (data_dir w) with
      | inl e => (inl e, mkWorld (data_dir w) None (stdout w ++ out))
      | inr [] => (inr tt, mkWorld (data_dir w) None (stdout w ++ out))
      | inr docs =>
          (inr tt, mkWorld (data_dir w) (Some (published docs)) (stdout w ++ out))
      end.
Proof.
  destruct (documents_under DATA_PATH (data_dir w)) as [e|[|doc docs]] eqn:Hdocs.
  - by apply (ingest_data_raises embed read_text markdown_split_text pdf_load csv_load
                split_text PROJECT_ROOT).
  - by apply ingest_data_empty.
  - by apply (ingest_data_publishes embed read_text markdown_split_text pdf_load
                csv_load split_text PROJECT_ROOT).
Qed.

Lemma elem_of_split_documents docs c :
  c ∈ split_documents docs ->
  ∃ parent text, parent ∈ docs ∧ text ∈ split_text (page_content parent)
                 ∧ c = mkDocument text (metadata parent).
Proof.
  unfold Loader.split_documents. intros Hc.
  apply list_elem_of_In, in_flat_map in Hc as (parent & Hparent & Hc).
  apply in_map_iff in Hc as (text & <- & Htext).
  exists parent, text. by rewrite !list_elem_of_In.
Qed.

(** X16. Every record that a successful run of [ingest_data] publishes is
    a chunk of a unit of a file of the corpus: its text is a piece of the
    unit's text, its metadata is the unit's with the ['role'] set to the
    name of the directory of the file, and its vector is the embedding of
    its text. *)
Theorem ingest_data_records w w' coll chunk v :
  ingest_data w = (inr tt, w') ->
  chroma_db w' = Some coll ->
  (chunk, v) ∈ coll ->
  v = embed (page_content chunk)
  ∧ ∃ t dirpath dirnames files f units unit,
      data_dir w = Some t
      ∧ (dirpath, dirnames, files) ∈ walk DATA_PATH t
      ∧ f ∈ files
      ∧ load_file dirpath f = inr (Some units)
      ∧ unit ∈ units
      ∧ page_content chunk ∈ split_text (page_content unit)
      ∧ metadata chunk = <["role" := MStr (path_name dirpath)]> (metadata unit).
Proof.
  intros Hrun Hdb Hin. destruct (ingest_data_cases w) as [out Hcases].
  rewrite Hrun in Hcases.
  destruct (documents_under DATA_PATH (data_dir w)) as [e|[|doc docs]] eqn:Hdocs;
    [discriminate| |].
  { injection Hcases as ->. simpl in Hdb. discriminate. }
  injection Hcases as ->. simpl in Hdb. injection Hdb as <-.
  apply list_elem_of_fmap in Hin as (c & [= -> ->] & Hc).
  split; [done|].
  apply (elem_of_split_documents (doc :: docs)) in Hc
    as (parent & text & Hparent & Htext & ->).
  simpl.
  destruct (Loader.data_dir vector w) as [t|] eqn:Ht; [|discriminate].
  destruct (documents_under_elem _ _ _ _ Hdocs Hparent)
    as (dirpath & dirnames & files & f & units & unit & He & Hf & Hl & Hu & ->).
  exists t, dirpath, dirnames, files, f, units, unit.
  repeat (split; [done|]). done.
Qed.

(** X17. The index that [ingest_data] leaves, and whether it raises,
    depend on the corpus alone: two runs over the same data directory end
    alike, whatever index and output were there before. *)
Theorem ingest_data_fresh_index w1 w2 :
  data_dir w1 = data_dir w2 ->
  fst (ingest_data w1) = fst (ingest_data w2)
  ∧ chroma_db (snd (ingest_data w1)) = chroma_db (snd (ingest_data w2)).
Proof.
  intros Hsame.
  destruct (ingest_data_cases w1) as [out1 ->].
  destruct (ingest_data_cases w2) as [out2 ->].
  rewrite Hsame.
  by destruct (documents_under DATA_PATH (data_dir w2)) as [e|[|doc docs]].
Qed.

(** X18. Ingesting twice is ingesting once: a second run over the world
    that a successful run left succeeds and leaves the same index. *)
Theorem ingest_data_idempotent w w1 :
  ingest_data w = (inr tt, w1) ->
  fst (ingest_data w1) = inr tt
  ∧ chroma_db (snd (ingest_data w1)) = chroma_db w1
  ∧ data_dir (snd (ingest_data w1)) = data_dir w.
Proof.
  intros Hrun.
  destruct (ingest_data_cases w) as [out Hcases]. rewrite Hrun in Hcases.
  destruct (ingest_data_cases w1) as [out1 ->].
  assert (Hdir : data_dir w1 = data_dir w).
  { destruct (documents_under DATA_PATH (data_dir w)) as [e|[|doc docs]];
      [discriminate| |]; by injection Hcases as ->. }
  rewrite Hdir.
  destruct (documents_under DATA_PATH (data_dir w)) as [e|[|doc docs]];
    [discriminate| |]; by injection Hcases as ->.
Qed.

(** X19. One file that does not parse costs the index: [ingest_data]
    raises, and the persist directory, removed before the walk, is gone. *)
Theorem ingest_data_parse_failure w t dirpath dirnames files f e :
  data_dir w = Some t ->
  (dirpath, dirnames, files) ∈ walk DATA_PATH t ->
  f ∈ files ->
  load_file dirpath f = inl e ->
  ∃ e' out, ingest_data w = (inl e', mkWorld (data_dir w) None (stdout w ++ out)).
Proof.
  intros Ht Hentry Hf Hload.
  assert (Htag : tag_units dirpath f = inl e).
  { unfold Loader.tag_units. by rewrite Hload. }
  destruct (collect_inl (tag_units dirpath) files f e Hf Htag) as [e1 He1].
  destruct (collect_inl entry_units _ (dirpath, dirnames, files) e1 Hentry He1)
    as [e' He'].
  destruct (ingest_data_cases w) as [out Hcases].
  rewrite Ht in Hcases. simpl in Hcases. rewrite He' in Hcases.
  exists e', out. by rewrite Ht.
Qed.

(** X20. [ingest_data] only reads the corpus and only adds to the output:
    the data directory is the same afterwards and the lines printed before
    are still there, in front. *)
Theorem ingest_data_frame w :
  data_dir (snd (ingest_data w)) = data_dir w
  ∧ ∃ out, stdout (snd (ingest_data w)) = stdout w ++ out.
Proof.
  destruct (ingest_data_cases w) as [out ->].
  destruct (documents_under DATA_PATH (data_dir w)) as [e|[|doc docs]];
    (split; [done|by exists out]).
Qed.

End LoaderMore.

(** Runs of the ingestion job on the sample trees. *)

Lemma unrecognized_file_no_effect_witness :
  for_each (Loader.process_file Z Sample.read_text Sample.markdown_split_text
              Sample.pdf_load Sample.csv_load (Sample.data_path ++ ["general"]))
    ([mkFile "handbook.md" "Leave policy"] ++ mkFile "notes.txt" "todo" :: [])
    [] Sample.flat_world
  = for_each (Loader.process_file Z Sample.read_text Sample.markdown_split_text
                Sample.pdf_load Sample.csv_load (Sample.data_path ++ ["general"]))
      ([mkFile "handbook.md" "Leave policy"] ++ [])
      [] Sample.flat_world.
Proof.
  apply (unrecognized_file_no_effect Sample.read_text Sample.markdown_split_text
           Sample.pdf_load Sample.csv_load);
    vm_compute; reflexivity.
Defined.

Lemma ingest_data_records_witness :
  8%Z = Sample.embed (page_content (mkDocument "Leave po" (metadata Sample.handbook_unit)))
  ∧ ∃ t dirpath dirnames files f units unit,
      Loader.data_dir Z Sample.flat_world = Some t
      ∧ (dirpath, dirnames, files) ∈ walk (Loader.DATA_PATH Sample.PROJECT_ROOT) t
      ∧ f ∈ files
      ∧ Loader.load_file Sample.read_text Sample.markdown_split_text
          Sample.pdf_load Sample.csv_load dirpath f = inr (Some units)
      ∧ unit ∈ units
      ∧ page_content (mkDocument "Leave po" (metadata Sample.handbook_unit)) ∈ Sample.split_text (page_content unit)
      ∧ metadata (mkDocument "Leave po" (metadata Sample.handbook_unit))
        = <["role" := MStr (path_name dirpath)]> (metadata unit).
Proof.
  apply (ingest_data_records Sample.embed Sample.read_text Sample.markdown_split_text
           Sample.pdf_load Sample.csv_load Sample.split_text Sample.PROJECT_ROOT
           Sample.flat_world (snd (Sample.ingest_data Sample.flat_world))
           (default [] (Loader.chroma_db Z (snd (Sample.ingest_data Sample.flat_world))))
           (mkDocument "Leave po" (metadata Sample.handbook_unit)) 8%Z).
  - vm_compute. reflexivity.
  - vm_compute. reflexivity.
  - eapply (bool_decide_unpack _). vm_compute. reflexivity.
Defined.

Lemma ingest_data_fresh_index_witness :
  fst (Sample.ingest_data Sample.flat_world)
  = fst (Sample.ingest_data
           (Loader.mkWorld Z (Some Sample.flat_tree) (Some Sample.old_index) ["earlier"]))
  ∧ Loader.chroma_db Z (snd (Sample.ingest_data Sample.flat_world))
    = Loader.chroma_db Z
        (snd (Sample.ingest_data
                (Loader.mkWorld Z (Some Sample.flat_tree) (Some Sample.old_index)
                   ["earlier"]))).
Proof.
  apply (ingest_data_fresh_index Sample.embed Sample.read_text
           Sample.markdown_split_text Sample.pdf_load Sample.csv_load
           Sample.split_text Sample.PROJECT_ROOT Sample.flat_world
           (Loader.mkWorld Z (Some Sample.flat_tree) (Some Sample.old_index) ["earlier"])).
  reflexivity.
Defined.

Lemma ingest_data_idempotent_witness :
  let w1 := snd (Sample.ingest_data Sample.flat_world) in
  fst (Sample.ingest_data w1) = inr tt
  ∧ Loader.chroma_db Z (snd (Sample.ingest_data w1)) = Loader.chroma_db Z w1
  ∧ Loader.data_dir Z (snd (Sample.ingest_data w1)) = Loader.data_dir Z Sample.flat_world.
Proof.
  apply (ingest_data_idempotent Sample.embed Sample.read_text
           Sample.markdown_split_text Sample.pdf_load Sample.csv_load
           Sample.split_text Sample.PROJECT_ROOT Sample.flat_world
           (snd (Sample.ingest_data Sample.flat_world))).
  vm_compute. reflexivity.
Defined.

Lemma ingest_data_parse_failure_witness :
  ∃ e' out,
    Sample.ingest_data Sample.broken_world
    = (inl e',
       Loader.mkWorld Z (Loader.data_dir Z Sample.broken_world) None
         (Loader.stdout Z Sample.broken_world ++ out)).
Proof.
  apply (ingest_data_parse_failure Sample.embed Sample.read_text
           Sample.markdown_split_text Sample.pdf_load Sample.csv_load
           Sample.split_text Sample.PROJECT_ROOT Sample.broken_world
           Sample.broken_tree (Sample.data_path ++ ["general"]) []
           [mkFile "scan.pdf" "not a pdf"; mkFile "handbook.md" "Leave policy"]
           (mkFile "scan.pdf" "not a pdf")
           (LoaderError "/srv/app/data/general/scan.pdf")).
  - reflexivity.
  - eapply (bool_decide_unpack _). vm_compute. reflexivity.
  - eapply (bool_decide_unpack _). vm_compute. reflexivity.
  - vm_compute. reflexivity.
Defined.

(** ** From the corpus to the answer *)

Section EndToEnd.

Import Loader Rag.

Context {vector : Type} (embed : string -> vector).
Context (read_text : path -> string -> exn + string).
Context (markdown_split_text : string -> list Document).
Context (pdf_load csv_load : path -> string -> exn + list Document).
Context (split_text : string -> list string).
Context (PROJECT_ROOT : path).
Context (similarity : vector -> vector -> Z).
Context (show_documents : list Document -> string) (llm : string -> string).

Local Abbreviation ingest_data :=
  (ingest_data vector embed read_text markdown_split_text pdf_load csv_load
     split_text PROJECT_ROOT).
Local Abbreviation get_rag_response :=
  (get_rag_response vector embed similarity show_documents llm).
Local Abbreviation search := (similarity_search_with_score vector embed similarity).

Lemma search_from_collection coll query k filter doc score :
  (doc, score) ∈ search coll query k filter ->
  ∃ v, (doc, v) ∈ coll ∧ score = similarity (embed query) v.
Proof.
  unfold similarity_search_with_score. intros Hx.
  apply subseteq_take in Hx. rewrite elem_of_rank in Hx.
  unfold candidates in Hx.
  apply (list_elem_of_fmap (A:=Document * vector)) in Hx as ([d v] & [= -> ->] & Hr).
  apply list_elem_of_In, filter_In in Hr as [Hr _]. apply list_elem_of_In in Hr.
  by exists v.
Qed.

(** X21. After a successful ingestion, a chunk that [get_rag_response]
    retrieves from the published collection is a piece of a unit that
    [load_file] produced from a file of the corpus, with the unit's
    metadata and the name of the file's directory as its role, and that
    name is in the list of the caller's role: the content of a file
    reaches only the caller roles that list the name of its directory. *)
Theorem directory_content_reaches_listed_roles
    (w w' : Loader.World vector) coll log query user_role doc score :
  ingest_data w = (inr tt, w') ->
  Loader.chroma_db vector w' = Some coll ->
  (doc, score)
    ∈ retrieved (Rag.new_calls vector (get_rag_response query user_role)
                   (Rag.mkWorld vector coll log)) ->
  ∃ t dirpath dirnames files f units unit,
    Loader.data_dir vector w = Some t
    ∧ (dirpath, dirnames, files) ∈ walk (DATA_PATH PROJECT_ROOT) t
    ∧ f ∈ files
    ∧ Loader.load_file read_text markdown_split_text pdf_load csv_load dirpath f
      = inr (Some units)
    ∧ unit ∈ units
    ∧ page_content doc ∈ split_text (page_content unit)
    ∧ metadata doc = <["role" := MStr (path_name dirpath)]> (metadata unit)
    ∧ metadata doc !! "role" = Some (MStr (path_name dirpath))
    ∧ path_name dirpath ∈ accessible_roles user_role.
Proof.
  intros Hrun Hdb Hin.
  rewrite (retrieved_get_rag_response embed similarity show_documents llm) in Hin.
  destruct (truthy (accessible_roles user_role)); [|by apply elem_of_nil in Hin].
  simpl in Hin.
  pose proof (search_matches embed similarity llm _ _ _ _ _ Hin) as Hm.
  apply matches_role_filter in Hm as (r & Hrole & Hacc). simpl in Hrole.
  apply search_from_collection in Hin as (v & Hcoll & _).
  destruct (ingest_data_cases embed read_text markdown_split_text pdf_load csv_load
              split_text PROJECT_ROOT w) as [out Hcases].
  rewrite Hrun in Hcases.
  destruct (Loader.documents_under read_text markdown_split_text pdf_load csv_load
              (DATA_PATH PROJECT_ROOT) (Loader.data_dir vector w))
    as [e|[|d docs]] eqn:Hdocs; [discriminate| |].
  { injection Hcases as ->. simpl in Hdb. discriminate. }
  injection Hcases as ->. cbn [Loader.chroma_db] in Hdb. injection Hdb as <-.
  apply list_elem_of_fmap in Hcoll as (c & [= -> ->] & Hc).
  apply (elem_of_split_documents split_text (d :: docs)) in Hc
    as (parent & text & Hparent & Htext & ->).
  simpl in Hrole.
  destruct (Loader.data_dir vector w) as [t|] eqn:Ht; [|discriminate].
  destruct (documents_under_elem read_text markdown_split_text pdf_load csv_load
              _ _ _ _ Hdocs Hparent)
    as (dirpath & dirnames & files & f & units & unit & He & Hf & Hl & Hu & ->).
  simpl in Hrole. rewrite lookup_insert_eq in Hrole. injection Hrole as <-.
  exists t, dirpath, dirnames, files, f, units, unit.
  repeat (split; [done|]). split; [|done]. simpl. apply lookup_insert_eq.
Qed.

End EndToEnd.

Lemma directory_content_reaches_listed_roles_witness :
  ∃ t dirpath dirnames files f units unit,
    Loader.data_dir Z Sample.flat_world = Some t
    ∧ (dirpath, dirnames, files) ∈ walk (Loader.DATA_PATH Sample.PROJECT_ROOT) t
    ∧ f ∈ files
    ∧ Loader.load_file Sample.read_text Sample.markdown_split_text Sample.pdf_load
        Sample.csv_load dirpath f = inr (Some units)
    ∧ unit ∈ units
    ∧ page_content (mkDocument "Leave po" (metadata Sample.handbook_unit))
      ∈ Sample.split_text (page_content unit)
    ∧ metadata (mkDocument "Leave po" (metadata Sample.handbook_unit))
      = <["role" := MStr (path_name dirpath)]> (metadata unit)
    ∧ metadata (mkDocument "Leave po" (metadata Sample.handbook_unit)) !! "role"
      = Some (MStr (path_name dirpath))
    ∧ path_name dirpath ∈ Rag.accessible_roles "hr".
Proof.
  apply (directory_content_reaches_listed_roles Sample.embed Sample.read_text
           Sample.markdown_split_text Sample.pdf_load Sample.csv_load
           Sample.split_text Sample.PROJECT_ROOT Sample.similarity
           Sample.show_documents Sample.llm
           Sample.flat_world (snd (Sample.ingest_data Sample.flat_world))
           (default [] (Loader.chroma_db Z (snd (Sample.ingest_data Sample.flat_world))))
           [] "Leave policy" "hr"
           (mkDocument "Leave po" (metadata Sample.handbook_unit)) (-4)%Z).
  - vm_compute. reflexivity.
  - vm_compute. reflexivity.
  - eapply (bool_decide_unpack _). vm_compute. reflexivity.
Defined.

(** ** The front end *)

Section FrontendFacts.

Import Frontend.

Context (post : Main.ChatRequest -> reply).

Local Abbreviation interact := (interact post).
Local Abbreviation browse := (browse post).
Local Abbreviation bot_response_of := Frontend.bot_response_of.

Implicit Types (w : Widgets) (s : Session).

(** A run is computed on a session and widgets given field by field. *)
Local Ltac expose w s :=
  destruct w as [user_in pass_in login_click logout_click chat];
  destruct s as [history logged user pass];
  cbn [logged_in login_button logout_button chat_input username_input
       password_input messages username password] in *.

Lemma nonempty_true (x : string) : nonempty x = true ↔ x ≠ "".
Proof.
  unfold nonempty. destruct (String.eqb_spec x ""); simpl; split; congruence.
Qed.

Lemma interact_logged_out_sent w s :
  logged_in s = false -> sent (interact w s) = [].
Proof.
  intros Hout. expose w s. subst logged.
  destruct login_click; [|reflexivity].
  by destruct user_in, pass_in.
Qed.

(** X22. While nobody is logged in no request goes to the backend,
    whatever the widgets return; a login stores the credentials without
    asking the backend. *)
Theorem no_request_unless_logged_in w s :
  logged_in s = false -> sent (interact w s) = [].
Proof. exact (interact_logged_out_sent w s). Qed.

Lemma interact_login w s :
  logged_in s = false -> login_button w = true ->
  session (interact w s)
  = if nonempty (username_input w) && nonempty (password_input w)
    then mkSession (messages s) true (username_input w) (password_input w)
    else s.
Proof.
  intros Hout Hclick. expose w s. subst logged login_click.
  by destruct user_in, pass_in.
Qed.

(** X23. A click on the login button while nobody is logged in logs in
    with the two inputs when both are non-empty, keeping the history, and
    changes nothing otherwise. *)
Theorem login_stores_credentials w s :
  logged_in s = false -> login_button w = true ->
  session (interact w s)
  = if nonempty (username_input w) && nonempty (password_input w)
    then mkSession (messages s) true (username_input w) (password_input w)
    else s.
Proof. exact (interact_login w s). Qed.

Lemma interact_logout w s :
  logged_in s = true -> logout_button w = true ->
  session (interact w s) = mkSession [] false "" ""
  ∧ sent (interact w s) = [].
Proof.
  intros Hin Hclick. expose w s. by subst logged logout_click.
Qed.

(** X24. A click on the logout button empties the session: history,
    username and password are reset, and no request is sent, even if a
    question is submitted in the same run. *)
Theorem logout_resets w s :
  logged_in s = true -> logout_button w = true ->
  session (interact w s) = mkSession [] false "" ""
  ∧ sent (interact w s) = [].
Proof. exact (interact_logout w s). Qed.

Lemma interact_chat w s prompt :
  logged_in s = true -> logout_button w = false ->
  chat_input w = Some prompt -> prompt ≠ "" ->
  let payload := Main.mkChatRequest prompt (username s) (password s) in
  sent (interact w s) = [payload]
  ∧ session (interact w s)
    = mkSession (messages s ++ [mkMessage "user" prompt;
                                mkMessage "assistant" (bot_response_of (post payload))])
                true (username s) (password s).
Proof.
  intros Hin Hno Hprompt Hne payload. subst payload. expose w s.
  subst logged logout_click chat. by destruct prompt.
Qed.

(** X25. A question submitted by a logged-in user sends one request, with
    the question and the credentials of the session, and appends two
    messages to the history: the question and the answer made of the
    reply; the credentials stay. *)
Theorem chat_appends_exchange w s prompt :
  logged_in s = true -> logout_button w = false ->
  chat_input w = Some prompt -> prompt ≠ "" ->
  let payload := Main.mkChatRequest prompt (username s) (password s) in
  sent (interact w s) = [payload]
  ∧ session (interact w s)
    = mkSession (messages s ++ [mkMessage "user" prompt;
                                mkMessage "assistant" (bot_response_of (post payload))])
                true (username s) (password s).
Proof. exact (interact_chat w s prompt). Qed.

Lemma interact_idle_logged_in w s :
  logged_in s = true -> logout_button w = false ->
  chat_input w = None ∨ chat_input w = Some "" ->
  session (interact w s) = s ∧ sent (interact w s) = [].
Proof.
  intros Hin Hno Hchat. expose w s. subst logged logout_click.
  by destruct Hchat as [->| ->].
Qed.

Lemma interact_idle_logged_out w s :
  logged_in s = false -> login_button w = false ->
  session (interact w s) = s.
Proof. intros Hout Hno. expose w s. by subst logged login_click. Qed.

Lemma exchanges_app ms q a :
  exchanges ms = true ->
  exchanges (ms ++ [mkMessage "user" q; mkMessage "assistant" a]) = true.
Proof.
  revert ms. fix IH 1. intros [|m1 [|m2 ms]]; simpl; try done.
  intros Hms. apply andb_prop in Hms as [Hroles Hms].
  rewrite Hroles. simpl. by apply IH.
Qed.

(** One interaction keeps the session consistent and sends only complete
    requests. *)
Lemma interact_consistent w s :
  consistent s ->
  consistent (session (interact w s))
  ∧ Forall (fun req => Main.query req ≠ "" ∧ Main.username req ≠ ""
                       ∧ Main.password req ≠ "")
           (sent (interact w s)).
Proof.
  intros [Hex Hs]. destruct (logged_in s) eqn:Hlog.
  - destruct Hs as [Hu Hp]. destruct (logout_button w) eqn:Hclick.
    + destruct (interact_logout w s Hlog Hclick) as [-> ->].
      split; [by repeat split|constructor].
    + destruct (chat_input w) as [prompt|] eqn:Hprompt.
      * destruct (decide (prompt = "")) as [->|Hne].
        -- destruct (interact_idle_logged_in w s Hlog Hclick) as [-> ->]; [by right|].
           split; [|constructor]. split; [done|]. by rewrite Hlog.
        -- destruct (interact_chat w s prompt Hlog Hclick Hprompt Hne) as [-> ->].
           split.
           ++ split; [by apply exchanges_app|done].
           ++ by repeat constructor.
      * destruct (interact_idle_logged_in w s Hlog Hclick) as [-> ->]; [by left|].
        split; [|constructor]. split; [done|]. by rewrite Hlog.
  - destruct Hs as (Hms & Hu & Hp).
    rewrite (interact_logged_out_sent w s Hlog). split; [|constructor].
    destruct (login_button w) eqn:Hclick.
    + rewrite (interact_login w s Hlog Hclick).
      destruct (nonempty (username_input w)) eqn:Hnu;
        destruct (nonempty (password_input w)) eqn:Hnp; cbn;
        try (split; [done|]; by rewrite Hlog).
      apply nonempty_true in Hnu, Hnp. by split.
    + rewrite (interact_idle_logged_out w s Hlog Hclick).
      split; [done|]. by rewrite Hlog.
Qed.

(** X26. Whatever the user does, from a consistent session (a fresh one
    for instance) the session stays consistent — the history is a
    sequence of question/answer pairs, and it is empty, like the
    credentials, whenever nobody is logged in — and every request sent
    carries a non-empty question, username and password. *)
Theorem browse_consistent (ws : list Widgets) s :
  consistent s ->
  consistent (fst (browse ws s))
  ∧ Forall (fun req => Main.query req ≠ "" ∧ Main.username req ≠ ""
                       ∧ Main.password req ≠ "")
           (snd (browse ws s)).
Proof.
  revert s. induction ws as [|w ws IH]; intros s Hs.
  - simpl. split; [done|constructor].
  - cbn [Frontend.browse].
    destruct (interact_consistent w s Hs) as [Hs' Hreqs].
    destruct (IH _ Hs') as [Hend Hrest].
    destruct (browse ws (session (interact w s))) as [s' reqs]. simpl in *.
    split; [done|]. by apply Forall_app.
Qed.

Lemma fresh_consistent : consistent fresh.
Proof. by repeat split. Qed.

End FrontendFacts.

Lemma login_stores_credentials_witness :
  Frontend.session
    (Frontend.interact (fun _ => Frontend.RequestFailed "down")
       (Frontend.mkWidgets "lisa_h" "letmein" true false None) Frontend.fresh)
  = if Frontend.nonempty "lisa_h" && Frontend.nonempty "letmein"
    then Frontend.mkSession [] true "lisa_h" "letmein"
    else Frontend.fresh.
Proof.
  apply (login_stores_credentials (fun _ => Frontend.RequestFailed "down")
           (Frontend.mkWidgets "lisa_h" "letmein" true false None) Frontend.fresh);
    reflexivity.
Defined.

Lemma no_request_unless_logged_in_witness :
  Frontend.sent
    (Frontend.interact (fun _ => Frontend.RequestFailed "down")
       (Frontend.mkWidgets "lisa_h" "letmein" true true (Some "hello")) Frontend.fresh)
  = [].
Proof.
  apply (no_request_unless_logged_in (fun _ => Frontend.RequestFailed "down")).
  reflexivity.
Defined.

Lemma logout_resets_witness :
  let s := Frontend.mkSession [] true "lisa_h" "letmein" in
  let w := Frontend.mkWidgets "" "" false true (Some "hello") in
  Frontend.session (Frontend.interact (fun _ => Frontend.RequestFailed "down") w s)
  = Frontend.mkSession [] false "" ""
  ∧ Frontend.sent (Frontend.interact (fun _ => Frontend.RequestFailed "down") w s) = [].
Proof.
  apply (logout_resets (fun _ => Frontend.RequestFailed "down")); reflexivity.
Defined.

Lemma chat_appends_exchange_witness :
  let post := fun _ : Main.ChatRequest => Frontend.RequestFailed "down" in
  let s := Frontend.mkSession [] true "lisa_h" "letmein" in
  let w := Frontend.mkWidgets "" "" false false (Some "hello") in
  let payload := Main.mkChatRequest "hello" "lisa_h" "letmein" in
  Frontend.sent (Frontend.interact post w s) = [payload]
  ∧ Frontend.session (Frontend.interact post w s)
    = Frontend.mkSession
        ([] ++ [Frontend.mkMessage "user" "hello";
                Frontend.mkMessage "assistant" (Frontend.bot_response_of (post payload))])
        true "lisa_h" "letmein".
Proof.
  apply (chat_appends_exchange (fun _ => Frontend.RequestFailed "down")
           (Frontend.mkWidgets "" "" false false (Some "hello"))
           (Frontend.mkSession [] true "lisa_h" "letmein") "hello");
    try reflexivity.
  discriminate.
Defined.

Lemma browse_consistent_witness :
  let post := fun _ : Main.ChatRequest => Frontend.RequestFailed "down" in
  let ws := [ Frontend.mkWidgets "lisa_h" "" true false None;
              Frontend.mkWidgets "lisa_h" "letmein" true false None;
              Frontend.mkWidgets "" "" false false (Some "hello");
              Frontend.mkWidgets "" "" false true None ] in
  Frontend.consistent (fst (Frontend.browse post ws Frontend.fresh))
  ∧ Forall (fun req => Main.query req ≠ "" ∧ Main.username req ≠ ""
                       ∧ Main.password req ≠ "")
           (snd (Frontend.browse post ws Frontend.fresh)).
Proof.
  apply (browse_consistent (fun _ => Frontend.RequestFailed "down")).
  repeat split.
Defined.

(** ** The front end in front of the endpoint *)

Section FrontToBack.

Import Frontend.

Context {vector : Type}.
Context (embed : string -> vector) (similarity : vector -> vector -> Z).
Context (show_documents : list Document -> string) (llm : string -> string).

Local Abbreviation backend := (backend vector embed similarity show_documents llm).
Local Abbreviation chat_with_bot :=
  (Main.chat_with_bot vector embed similarity show_documents llm).
Local Abbreviation search :=
  (Rag.similarity_search_with_score vector embed similarity).

(** What the endpoint returns for a payload. *)
Lemma chat_with_bot_result (payload : Main.ChatRequest) (bw : Rag.World vector) :
  fst (chat_with_bot payload bw)
  = match fst (Auth.get_current_user Auth.MOCK_USERS
                 (Auth.mkUserLogin (Main.username payload) (Main.password payload))) with
    | inl _ => inl Auth.unauthorized
    | inr u =>
        inr (llm (Rag.format_prompt show_documents
                    (map fst (search (Rag.collection vector bw) (Main.query payload) 5
                                (Rag.role_filter (Auth.role u))))
                    (Main.query payload)))
    end.
Proof.
  unfold Main.chat_with_bot, bind, lift.
  destruct (Auth.get_current_user Auth.MOCK_USERS
              (Auth.mkUserLogin (Main.username payload) (Main.password payload)))
    as [[e|u] db'] eqn:Hauth; simpl.
  - by apply get_current_user_inl in Hauth as [-> _].
  - pose proof (authenticated_role_granted _ _ _ Hauth) as Hg.
    by rewrite (get_rag_response_granted embed similarity show_documents llm).
Qed.

(** X27. With the endpoint behind it, the answer that the front end shows
    and stores for a question is decided by the credentials kept at login:
    if [get_current_user] rejects them the answer is the authentication
    message, and only then is a wrong login noticed; if it accepts them the
    answer is the text of the language model for the chunks retrieved for
    the stored role. *)
Theorem chat_answer (bw : Rag.World vector) w s prompt :
  logged_in s = true -> logout_button w = false ->
  chat_input w = Some prompt -> prompt ≠ "" ->
  messages (session (interact (backend bw) w s))
  = messages s
    ++ [ mkMessage "user" prompt;
         mkMessage "assistant"
           match fst (Auth.get_current_user Auth.MOCK_USERS
                        (Auth.mkUserLogin (username s) (password s))) with
           | inl _ => "Authentication failed. Please check your username and password."
           | inr u =>
               llm (Rag.format_prompt show_documents
                      (map fst (search (Rag.collection vector bw) prompt 5
                                  (Rag.role_filter (Auth.role u))))
                      prompt)
           end ].
Proof.
  intros Hin Hno Hprompt Hne.
  destruct (interact_chat (backend bw) w s prompt Hin Hno Hprompt Hne)
    as [_ Hsession].
  rewrite Hsession. cbn [messages]. do 3 f_equal.
  unfold Frontend.backend. rewrite chat_with_bot_result.
  cbn [Main.username Main.password Main.query].
  destruct (fst (Auth.get_current_user Auth.MOCK_USERS
                   (Auth.mkUserLogin (username s) (password s)))) as [e|u].
  - reflexivity.
  - unfold serve, bot_response_of.
    cbn [Z.leb Z.compare Z.ltb andb Pos.compare Pos.compare_cont].
    by rewrite lookup_singleton_eq.
Qed.

End FrontToBack.

Lemma chat_answer_witness :
  let post := Frontend.backend Z Sample.embed Sample.similarity Sample.show_documents
                Sample.llm Sample.world3 in
  let s := Frontend.mkSession [] true "lisa_h" "letmein" in
  let w := Frontend.mkWidgets "" "" false false (Some "budget") in
  Frontend.messages (Frontend.session (Frontend.interact post w s))
  = [] ++ [ Frontend.mkMessage "user" "budget";
            Frontend.mkMessage "assistant"
              match fst (Auth.get_current_user Auth.MOCK_USERS
                           (Auth.mkUserLogin "lisa_h" "letmein")) with
              | inl _ => "Authentication failed. Please check your username and password."
              | inr u =>
                  Sample.llm
                    (Rag.format_prompt Sample.show_documents
                       (map fst (Rag.similarity_search_with_score Z Sample.embed
                                   Sample.similarity Sample.collection3 "budget" 5
                                   (Rag.role_filter (Auth.role u))))
                       "budget")
              end ].
Proof.
  apply (chat_answer Sample.embed Sample.similarity Sample.show_documents Sample.llm
           Sample.world3 (Frontend.mkWidgets "" "" false false (Some "budget"))
           (Frontend.mkSession [] true "lisa_h" "letmein") "budget");
    try reflexivity.
  discriminate.
Defined.

(** Runs of the query pipeline for the further properties. *)

Lemma few_permitted_all_retrieved_witness :
  (mkDocument "leave policy" {[ "role" := MStr "hr" ]},
   Sample.similarity (Sample.embed "budget") 12%Z)
    ∈ Rag.retrieved
        (Rag.new_calls Z (Sample.get_rag_response "budget" "hr") Sample.world3).
Proof.
  apply (few_permitted_all_retrieved Sample.embed Sample.similarity
           Sample.show_documents Sample.llm "budget" "hr" Sample.world3
           (mkDocument "leave policy" {[ "role" := MStr "hr" ]}) 12%Z).
  - vm_compute. discriminate.
  - vm_compute. lia.
  - eapply (bool_decide_unpack _). vm_compute. reflexivity.
  - vm_compute. reflexivity.
Defined.

Lemma nothing_permitted_empty_context_witness :
  let w := Rag.mkWorld Z [(mkDocument "budget" {[ "role" := MStr "finance" ]}, 6%Z)] [] in
  Sample.get_rag_response "budget" "hr" w
  = (inr (Sample.llm (Rag.format_prompt Sample.show_documents [] "budget")),
     Rag.mkWorld Z (Rag.collection Z w)
       (Rag.calls Z w ++ [Rag.EvSearch "budget" 5 (Rag.role_filter "hr") [];
                          Rag.EvGenerate (Rag.format_prompt Sample.show_documents []
                                            "budget")])).
Proof.
  apply (nothing_permitted_empty_context Sample.embed Sample.similarity
           Sample.show_documents Sample.llm "budget" "hr"
           (Rag.mkWorld Z [(mkDocument "budget" {[ "role" := MStr "finance" ]}, 6%Z)] [])).
  - vm_compute. discriminate.
  - intros doc v r Hin Hrole. simpl in Hin.
    apply list_elem_of_singleton in Hin. injection Hin as -> ->.
    vm_compute in Hrole. injection Hrole as <-.
    eapply (bool_decide_unpack _). vm_compute. reflexivity.
Defined.

Lemma chat_with_bot_zero_leakage_witness :
  ∃ d stored r,
    Auth.MOCK_USERS !! "lisa_h" = Some d
    ∧ d !! "password" = Some "password123"
    ∧ d !! "role" = Some stored
    ∧ metadata (mkDocument "leave policy" {[ "role" := MStr "hr" ]}) !! "role"
      = Some (MStr r)
    ∧ r ∈ Rag.accessible_roles stored.
Proof.
  apply (chat_with_bot_zero_leakage Sample.embed Sample.similarity
           Sample.show_documents Sample.llm
           (Main.mkChatRequest "budget" "lisa_h" "password123") Sample.world3
           (mkDocument "leave policy" {[ "role" := MStr "hr" ]}) (-6)%Z).
  eapply (bool_decide_unpack _). vm_compute. reflexivity.
Defined.
